(** * Relay: a shallow embedding of the perception/action core

    Models of [relay/core/vision_engine.py], [relay/core/automation_engine.py]
    and [relay/core/task_controller.py].  Python's dynamic values are modelled
    by [json] (what the oracle's decoded responses carry), Python exceptions by
    the [Exc] error monad, and the external collaborators (the oracle service,
    [json.loads], PyAutoGUI) by explicit inputs of the functions that use
    them. *)

From Stdlib Require Import String Ascii List Bool ZArith QArith Qabs Lia.
Import ListNotations.
Open Scope string_scope.
Set Warnings "-register-all".

(* ------------------------------------------------------------------ *)
(** ** Python values and exceptions *)

Module Py.

(** The Python exception classes that the modelled code can raise. *)
Inductive exn :=
| TypeError
| AttributeError
| ValueError
| KeyError
| JSONDecodeError
| ZeroDivisionError
| UnboundLocalError
| TransportError
| DeviceError
| IndexError
| OverflowError.

Definition exn_str (e : exn) : string :=
  match e with
  | TypeError => "TypeError"
  | AttributeError => "AttributeError"
  | ValueError => "ValueError"
  | KeyError => "KeyError"
  | JSONDecodeError => "JSONDecodeError"
  | ZeroDivisionError => "ZeroDivisionError"
  | UnboundLocalError => "UnboundLocalError"
  | TransportError => "APIError"
  | DeviceError => "FailSafeException"
  | IndexError => "IndexError"
  | OverflowError => "OverflowError"
  end.

(** A computation that either returns or raises. *)
Definition Exc (A : Type) : Type := (A + exn)%type.

Definition ret {A} (a : A) : Exc A := inl a.
Definition raise {A} (e : exn) : Exc A := inr e.
Definition bind {A B} (m : Exc A) (k : A -> Exc B) : Exc B :=
  match m with inl a => k a | inr e => inr e end.

Notation "'let*' x ':=' m 'in' k" := (bind m (fun x => k))
  (at level 200, x binder, m at level 100, k at level 200).

(** [try: body except Exception: handler]. *)
Definition try_except {A} (body : Exc A) (handler : exn -> A) : A :=
  match body with inl a => a | inr e => handler e end.

(** Values as [json.loads] produces them.  [JNum q] carries the exact value
    of a Python [int] or [float] (for a float, the double itself). *)
Inductive json :=
| JNull
| JBool (b : bool)
| JNum (q : Q)
| JStr (s : string)
| JArr (l : list json)
| JObj (kv : list (string * json)).

(** Truthiness ([if v:]). *)
Definition truthy (v : json) : bool :=
  match v with
  | JNull => false
  | JBool b => b
  | JNum q => negb (Qeq_bool q 0)
  | JStr s => negb (String.eqb s "")
  | JArr l => negb (List.length l =? 0)%nat
  | JObj kv => negb (List.length kv =? 0)%nat
  end.

(** Numeric view of a value ([bool] is a subclass of [int]). *)
Definition num (v : json) : Exc Q :=
  match v with
  | JBool b => ret (if b then 1 else 0)
  | JNum q => ret q
  | _ => raise TypeError
  end.

Definition le (a b : json) : Exc bool :=
  let* x := num a in let* y := num b in ret (Qle_bool x y).

Definition lt (a b : json) : Exc bool :=
  let* x := num a in let* y := num b in ret (negb (Qle_bool y x)).

(** [a <= b <= c], short-circuiting like Python's chained comparison. *)
Definition le_chain (a b c : json) : Exc bool :=
  let* l := le a b in if l then le b c else ret false.

Definition mul (a b : json) : Exc json :=
  let* x := num a in let* y := num b in ret (JNum (x * y)).

(** [int(x)] truncates toward zero. *)
Definition trunc (q : Q) : Z := Z.quot (Qnum q) (Zpos (Qden q)).

(** *** Floats

    A Python [float] is an IEEE 754 double: 53 bits of mantissa, exponents
    down to the subnormal [2^-1074], rounding to nearest with ties to even.
    A double is represented by its exact value in [Q]. *)

(** [n / d] rounded to the nearest integer, ties to the even one
    ([n >= 0], [d > 0]). *)
Definition round_div_even (n d : Z) : Z :=
  let q := (n / d)%Z in
  match Z.compare (2 * (n mod d))%Z d with
  | Lt => q
  | Gt => (q + 1)%Z
  | Eq => if Z.even q then q else (q + 1)%Z
  end.

(** [a / d >= 2^k], for any sign of [k]. *)
Definition ge_pow2 (a d k : Z) : bool :=
  if (0 <=? k)%Z then (d * 2 ^ k <=? a)%Z else (d <=? a * 2 ^ (- k))%Z.

(** The double nearest to [q], without the overflow check: the value of
    [float(n)] for an int [n], and the result of a float operation whose
    exact result is [q].  With [k = floor(log2 |q|)], the result is a
    multiple of [2^e], [e = max(-1074, k - 52)]. *)
Definition float_round (q : Q) : Q :=
  let q' := Qred q in
  let a := Z.abs (Qnum q') in
  let d := Zpos (Qden q') in
  if (a =? 0)%Z then 0 else
  let k0 := (Z.log2 a - Z.log2 d)%Z in
  let k := if ge_pow2 a d k0 then k0 else (k0 - 1)%Z in
  let e := Z.max (-1074) (k - 52) in
  let s := Z.sgn (Qnum q') in
  if (0 <=? e)%Z then inject_Z (s * round_div_even a (d * 2 ^ e) * 2 ^ e)
  else Qmake (s * round_div_even (a * 2 ^ (- e)) d) (Z.to_pos (2 ^ (- e))).

(** A result rounded to a double.  A result at or beyond [2^1024] raises
    [OverflowError]: [float(n)] and [int / int] raise it directly, and a
    float product that overflows gives [inf], on which the [int()] that
    follows it in the modelled code raises it. *)
Definition to_float (q : Q) : Exc Q :=
  let r := float_round q in
  if Qle_bool (inject_Z (2 ^ 1024)) (Qabs r) then raise OverflowError else ret r.

(** [a * b] with a float operand: an int operand is converted to float
    first, then the product is rounded. *)
Definition fmul (a b : Q) : Exc Q :=
  let* a' := to_float a in let* b' := to_float b in to_float (a' * b').

(** [a / b] on two ints: the correctly rounded quotient. *)
Definition fdiv_int (a b : Z) : Exc Q :=
  if (b =? 0)%Z then raise ZeroDivisionError else to_float (inject_Z a / inject_Z b).

Definition ascii_lower (c : ascii) : ascii :=
  let n := nat_of_ascii c in
  if (65 <=? n)%nat && (n <=? 90)%nat then ascii_of_nat (n + 32) else c.

Fixpoint lower (s : string) : string :=
  match s with
  | EmptyString => EmptyString
  | String c s' => String (ascii_lower c) (lower s')
  end.

(** [v.lower()]: only strings have the method. *)
Definition lower_v (v : json) : Exc string :=
  match v with JStr s => ret (lower s) | _ => raise AttributeError end.

(** [sub in s] for strings. *)
Fixpoint contains (sub s : string) : bool :=
  String.prefix sub s ||
  match s with EmptyString => false | String _ s' => contains sub s' end.

Definition any_in (keys : list string) (s : string) : bool :=
  existsb (fun k => contains k s) keys.

(** [v in [s1, s2, ...]] for a list of strings: only equal strings match. *)
Definition in_strs (v : json) (l : list string) : bool :=
  match v with JStr s => existsb (String.eqb s) l | _ => false end.

(** [dict.get(k, default)]. *)
Fixpoint get (kv : list (string * json)) (k : string) (d : json) : json :=
  match kv with
  | [] => d
  | (k', v) :: kv' => if String.eqb k k' then v else get kv' k d
  end.

Fixpoint chars (s : string) : list json :=
  match s with
  | EmptyString => []
  | String c s' => JStr (String c EmptyString) :: chars s'
  end.

(** [tuple(v)]. *)
Definition tuple (v : json) : Exc (list json) :=
  match v with
  | JArr l => ret l
  | JStr s => ret (chars s)
  | JObj kv => ret (map (fun '(k, _) => JStr k) kv)
  | _ => raise TypeError
  end.

(** [len(v)]. *)
Definition len (v : json) : Exc nat :=
  match v with
  | JArr l => ret (List.length l)
  | JStr s => ret (String.length s)
  | JObj kv => ret (List.length kv)
  | _ => raise TypeError
  end.

(** [s.find(c)] and [s.rfind(c)] for one character. *)
Fixpoint find (c : ascii) (s : string) : Z :=
  match s with
  | EmptyString => (-1)%Z
  | String c' s' =>
      if Ascii.eqb c c' then 0%Z
      else let r := find c s' in if (r <? 0)%Z then r else (1 + r)%Z
  end.

Fixpoint rfind (c : ascii) (s : string) : Z :=
  match s with
  | EmptyString => (-1)%Z
  | String c' s' =>
      let r := rfind c s' in
      if (0 <=? r)%Z then (1 + r)%Z else if Ascii.eqb c c' then 0%Z else (-1)%Z
  end.

(** [s[i:j]] with Python's handling of negative and out-of-range bounds. *)
Definition slice_index (n : nat) (i : Z) : nat :=
  let i' := if (i <? 0)%Z then (i + Z.of_nat n)%Z else i in
  Z.to_nat (Z.max 0 (Z.min i' (Z.of_nat n))).

Definition slice (s : string) (i j : Z) : string :=
  let n := String.length s in
  let a := slice_index n i in
  let b := slice_index n j in
  String.substring a (b - a) s.

(** Decimal rendering of a natural number, as [str(n)]. *)
Fixpoint digits (fuel n : nat) (acc : string) : string :=
  match fuel with
  | O => acc
  | S f =>
      let d := String (ascii_of_nat (48 + n mod 10)) EmptyString in
      if (n <? 10)%nat then d ++ acc else digits f (n / 10) (d ++ acc)
  end.

Definition str_nat (n : nat) : string := digits (S n) n "".

End Py.

Import Py.

(* ------------------------------------------------------------------ *)
(** ** vision_engine.py *)

(** [@dataclass ActionPlan]; [coordinates] is [None] or a tuple. *)
Record ActionPlan := mkActionPlan {
  action_type : json;
  target_description : json;
  coordinates : option (list json);
  text : json;
  confidence : json;
  reasoning : json;
  verification_criteria : json
}.

(** Truthiness of [action_plan.coordinates]. *)
Definition coords_truthy (c : option (list json)) : bool :=
  match c with Some (_ :: _) => true | _ => false end.

(** [VisionEngine.destructive_actions]. *)
Definition destructive_actions : list string :=
  ["delete"; "format"; "uninstall"; "shutdown"].

Definition valid_types : list string :=
  ["click"; "double_click"; "right_click"; "type"; "scroll"; "wait"; "verify";
   "navigate"; "hotkey"; "move"; "drag"].

Definition click_actions : list string :=
  ["click"; "double_click"; "right_click"; "navigate"; "move"; "drag"].

(** [VisionEngine._create_fallback_action]. *)
Definition create_fallback_action : ActionPlan := {|
  action_type := JStr "wait";
  target_description := JStr "Waiting for system to stabilize";
  coordinates := None;
  text := JNull;
  confidence := JNum 1;
  reasoning := JStr "Vision analysis failed, taking safe fallback action";
  verification_criteria := JStr "Screen appears stable"
|}.

(** [VisionEngine._validate_action_plan]. *)
Definition validate_action_plan (p : ActionPlan) : Exc bool :=
  let rest :=
    let* in_range := le_chain (JNum 1) (confidence p) (JNum 10) in
    if negb in_range then ret false
    else if negb (in_strs (action_type p) valid_types) then ret false
    else if in_strs (action_type p) click_actions && negb (coords_truthy (coordinates p))
    then ret false
    else ret true in
  let* d := lower_v (target_description p) in
  if any_in destructive_actions d then
    let* low := lt (confidence p) (JNum 8) in
    if low then ret false else rest
  else rest.

(** Body of [VisionEngine._map_coordinates] (the [try] block).
    [shot_size] is [screenshot.size], [screen] the screen info.  The
    products are float products: [scale_x] is a float, and a ratio
    component is a float (an int ratio, 0 or 1, times the width gives the
    same value once the product is converted for [* scale_x]). *)
Definition map_coordinates_body (coords : list json) (shot_size screen : Z * Z)
  : Exc (list json) :=
  match coords with
  | [sx; sy] =>
      let '(shot_w, shot_h) := shot_size in
      let* is_ratio :=
        let* cx := le_chain (JNum 0) sx (JNum 1) in
        if cx then le_chain (JNum 0) sy (JNum 1) else ret false in
      let* sx' := let* x := num sx in
                  if is_ratio then fmul x (inject_Z shot_w) else ret x in
      let* sy' := let* y := num sy in
                  if is_ratio then fmul y (inject_Z shot_h) else ret y in
      let '(screen_w, screen_h) := screen in
      let* scale_x := fdiv_int screen_w shot_w in
      let* scale_y := fdiv_int screen_h shot_h in
      let* px := fmul sx' scale_x in
      let screen_x := trunc px in
      let* py := fmul sy' scale_y in
      let screen_y := trunc py in
      ret [JNum (inject_Z screen_x); JNum (inject_Z screen_y)]
  | _ => raise ValueError
  end.

(** [VisionEngine._map_coordinates]: on any exception the input is returned. *)
Definition map_coordinates (coords : list json) (shot_size screen : Z * Z)
  : list json :=
  try_except (map_coordinates_body coords shot_size screen) (fun _ => coords).

(** [VisionEngine._parse_action_response]; [content] is
    [response.choices[0].message.content] and [loads] is [json.loads]. *)
Definition parse_action_response (loads : string -> Exc json) (content : option string)
  : Exc ActionPlan :=
  let body :=
    match content with
    | None => raise AttributeError
    | Some response_text =>
        let start_idx := find "{"%char response_text in
        let end_idx := (rfind "}"%char response_text + 1)%Z in
        let* data := loads (slice response_text start_idx end_idx) in
        match data with
        | JObj d =>
            let pct := get d "coordinates_pct" JNull in
            let pix := get d "coordinates" JNull in
            let* pct_ok :=
              if truthy pct then let* n := len pct in ret (n =? 2)%nat else ret false in
            let* coords :=
              if pct_ok then let* t := tuple pct in ret (Some t)
              else
                let* pix_ok :=
                  if truthy pix then let* n := len pix in ret (n =? 2)%nat else ret false in
                if pix_ok then let* t := tuple pix in ret (Some t) else ret None in
            ret {| action_type := get d "action_type" (JStr "wait");
                   target_description := get d "target_description" (JStr "Unknown target");
                   coordinates := coords;
                   text := get d "text" JNull;
                   confidence := get d "confidence" (JNum 5);
                   reasoning := get d "reasoning" (JStr "");
                   verification_criteria := get d "verification_criteria" JNull |}
        | _ => raise AttributeError
        end
    end in
  match body with
  | inr JSONDecodeError | inr KeyError => ret create_fallback_action
  | r => r
  end.

(** [@dataclass VisionContext]. *)
Record VisionContext := mkVisionContext {
  task_description : string;
  previous_actions : list ActionPlan;
  screenshots_history : list string;
  current_screenshot : string;
  iteration_count : nat
}.

(** The interpolated parts of the two messages [_build_context_messages]
    sends: the system prompt's fields and the user part's image. *)
Record Messages := mkMessages {
  msg_task : string;
  msg_screen : Z * Z;
  msg_previous_count : nat;
  msg_iteration : nat;
  msg_recent_actions : string;
  msg_image : string
}.

Section Prompt.

(** Python's [str()] / f-string rendering of a value. *)
Variable str_v : json -> string.

(** [context.previous_actions[-5:] if context.previous_actions else []]. *)
Definition recent_actions (l : list ActionPlan) : list ActionPlan :=
  match l with [] => [] | _ => skipn (List.length l - 5) l end.

Definition action_line (i : nat) (a : ActionPlan) : Exc string :=
  let* coords_str :=
    match coordinates a with
    | Some (c0 :: c1 :: _) => ret (" at (" ++ str_v c0 ++ ", " ++ str_v c1 ++ ")")
    | Some [_] => raise IndexError
    | _ => ret ""
    end in
  ret (str_nat (S i) ++ ". " ++ str_v (action_type a) ++ ": "
       ++ str_v (target_description a) ++ coords_str
       ++ " (confidence: " ++ str_v (confidence a) ++ ")" ++ String "010"%char "").

Fixpoint action_lines (i : nat) (l : list ActionPlan) : Exc string :=
  match l with
  | [] => ret ""
  | a :: l' =>
      let* s := action_line i a in
      let* r := action_lines (S i) l' in
      ret (s ++ r)
  end.

(** [VisionEngine._build_context_messages]. *)
Definition build_context_messages (ctx : VisionContext) (screenshot_b64 : string)
  (screen : Z * Z) : Exc Messages :=
  let* history := action_lines 0 (recent_actions (previous_actions ctx)) in
  ret {| msg_task := task_description ctx;
         msg_screen := screen;
         msg_previous_count := List.length (previous_actions ctx);
         msg_iteration := iteration_count ctx;
         msg_recent_actions := history;
         msg_image := screenshot_b64 |}.

End Prompt.

(** A captured frame: its pixel size and its PNG/base64 encoding. *)
Record Screenshot := mkScreenshot { size : Z * Z; b64 : string }.

(** The external collaborators of [analyze_screenshot]: the oracle's chat
    completion (content of the first choice, or a transport exception) and
    [json.loads]. *)
Record OracleIO := mkOracleIO {
  complete : Messages -> Exc (option string);
  loads : string -> Exc json
}.

(** [if action_plan.coordinates: action_plan.coordinates = self._map_coordinates(...)]. *)
Definition map_plan_coordinates (shot : Screenshot) (screen : Z * Z) (plan : ActionPlan)
  : ActionPlan :=
  match coordinates plan with
  | Some c =>
      if coords_truthy (Some c) then
        {| action_type := action_type plan;
           target_description := target_description plan;
           coordinates := Some (map_coordinates c (size shot) screen);
           text := text plan;
           confidence := confidence plan;
           reasoning := reasoning plan;
           verification_criteria := verification_criteria plan |}
      else plan
  | None => plan
  end.

(** Body of [VisionEngine.analyze_screenshot] (its [try] block). *)
Definition analyze_body (str_v : json -> string) (io : OracleIO) (shot : Screenshot)
  (ctx : VisionContext) (screen : Z * Z) : Exc ActionPlan :=
  let* messages := build_context_messages str_v ctx (b64 shot) screen in
  let* content := complete io messages in
  let* plan := parse_action_response (loads io) content in
  let plan' := map_plan_coordinates shot screen plan in
  let* ok := validate_action_plan plan' in
  if ok then ret plan' else raise ValueError.

(** [VisionEngine.analyze_screenshot]: every exception yields the fallback. *)
Definition analyze_screenshot (str_v : json -> string) (io : OracleIO) (shot : Screenshot)
  (ctx : VisionContext) (screen : Z * Z) : ActionPlan :=
  try_except (analyze_body str_v io shot ctx screen) (fun _ => create_fallback_action).

(** [VisionEngine.diagnose_failure]: the [failure_type] field of the
    oracle's answer, ['unknown'] when it is missing or anything fails. *)
Definition diagnose_failure (reply : Exc (option string)) (loads : string -> Exc json) : json :=
  try_except
    (let* content := reply in
     let* diagnosis_text :=
       match content with Some t => ret t | None => raise AttributeError end in
     let start_idx := find "{"%char diagnosis_text in
     let end_idx := (rfind "}"%char diagnosis_text + 1)%Z in
     let* diagnosis_json := loads (slice diagnosis_text start_idx end_idx) in
     match diagnosis_json with
     | JObj d => ret (get d "failure_type" (JStr "unknown"))
     | _ => raise AttributeError
     end)
    (fun _ => JStr "unknown").

(** [str.isspace] on one character (code points below 256). *)
Definition is_space (c : ascii) : bool :=
  let n := nat_of_ascii c in
  (((9 <=? n) && (n <=? 13)) || ((28 <=? n) && (n <=? 32)) || (n =? 133) || (n =? 160))%nat.

(** [text.replace("\n", " ")]. *)
Fixpoint replace_newlines (s : string) : string :=
  match s with
  | EmptyString => EmptyString
  | String c s' =>
      String (if Ascii.eqb c (ascii_of_nat 10) then " "%char else c) (replace_newlines s')
  end.

Fixpoint lstrip (s : string) : string :=
  match s with
  | EmptyString => EmptyString
  | String c s' => if is_space c then lstrip s' else s
  end.

Fixpoint rstrip (s : string) : string :=
  match s with
  | EmptyString => EmptyString
  | String c s' =>
      let r := rstrip s' in
      if String.eqb r "" && is_space c then EmptyString else String c r
  end.

(** [str.strip()]. *)
Definition strip (s : string) : string := lstrip (rstrip s).

(** [VisionEngine._shorten_text]. *)
Definition shorten_text (text : string) (max_len : nat) : string :=
  let t := strip (replace_newlines text) in
  if (max_len <? String.length t)%nat then String.substring 0 max_len t ++ "..." else t.

(* ------------------------------------------------------------------ *)
(** ** automation_engine.py *)

(** [@dataclass ExecutionResult] ([execution_time] is not modelled). *)
Record ExecutionResult := mkExecutionResult {
  success : bool;
  error_message : option string;
  before_screenshot : option string;
  after_screenshot : option string;
  action_verified : json;
  verification_message : option string
}.

(** [ExecutionResult(success, error_message)]. *)
Definition result (s : bool) (msg : option string) : ExecutionResult :=
  mkExecutionResult s msg None None (JBool false) None.

Definition failed (msg : string) : ExecutionResult := result false (Some msg).

(** [ExecutionResult(success=True, before_screenshot=b)]. *)
Definition succeeded (before : option string) : ExecutionResult :=
  mkExecutionResult true None before None (JBool false) None.

(** The screen and pointer as PyAutoGUI exposes them: [pyautogui.size()],
    the frame [_take_screenshot] returns (it never fails: a blank frame
    replaces a failed capture), and whether pointer/keyboard gestures
    complete or raise (e.g. PyAutoGUI's fail-safe). *)
Record Device := mkDevice {
  screen_size : Z * Z;
  frame : string;
  gestures_ok : bool
}.

(** A PyAutoGUI gesture at the given coordinates: non-numeric coordinates
    raise, as does a failing device. *)
Definition gesture (dev : Device) (xs : list json) : Exc unit :=
  let* _ := fold_right (fun x acc => let* _ := num x in acc) (ret tt) xs in
  if gestures_ok dev then ret tt else raise DeviceError.

(** [x, y = coords]. *)
Definition unpack2 (c : list json) : Exc (json * json) :=
  match c with [x; y] => ret (x, y) | _ => raise ValueError end.

Definition allowed_actions : list string := valid_types.

Definition destructive_keywords : list string :=
  ["delete"; "remove"; "uninstall"; "format"; "shutdown"].

Definition confirmation_required : list string :=
  ["delete"; "purchase"; "confirm"; "submit"].

(** [AutomationEngine._validate_action_safety]. *)
Definition validate_action_safety (dev : Device) (p : ActionPlan) : Exc bool :=
  let* allowed :=
    match action_type p with
    | JStr s => ret (existsb (String.eqb s) allowed_actions)
    | JArr _ | JObj _ => raise TypeError   (* unhashable dict key *)
    | _ => ret false
    end in
  if negb allowed then ret false else
  let rest :=
    match coordinates p with
    | Some c =>
        if coords_truthy (Some c) then
          let* xy := unpack2 c in
          let '(x, y) := xy in
          let '(sw, sh) := screen_size dev in
          let* inx := le_chain (JNum 0) x (JNum (inject_Z sw)) in
          let* inb := if inx then le_chain (JNum 0) y (JNum (inject_Z sh)) else ret false in
          ret inb
        else ret true
    | None => ret true
    end in
  let* d := lower_v (target_description p) in
  if any_in destructive_keywords d then
    let* low := lt (confidence p) (JNum 8) in
    if low then ret false else rest
  else rest.

(** [AutomationEngine._requires_confirmation]. *)
Definition requires_confirmation (p : ActionPlan) : Exc bool :=
  let* d := lower_v (target_description p) in
  ret (any_in confirmation_required d).

(** [AutomationEngine._get_user_confirmation]: the hook approves every
    request ("For now, return True (allow action)"). *)
Definition get_user_confirmation (p : ActionPlan) : bool := true.

(** The dict [VisionEngine.confirm_click] returns (it catches its own
    errors, answering [confirm=False] with no suggestion). *)
Record ConfirmResp := mkConfirmResp {
  confirm : bool;
  suggested : option (list json)
}.

(** [VisionEngine.confirm_click]: [reply] is the oracle's answer to the
    confirmation request ([response.choices[0].message.content]) or the
    error its call raised; [loads] is [json.loads].  Every exception is
    answered with [confirm=False] and no suggestion. *)
Definition confirm_click (reply : Exc (option string)) (loads : string -> Exc json)
  : ConfirmResp :=
  try_except
    (let* content := reply in
     let* response_text :=
       match content with Some t => ret t | None => raise AttributeError end in
     let start := find "{"%char response_text in
     let end_ := (rfind "}"%char response_text + 1)%Z in
     let* data := loads (slice response_text start end_) in
     match data with
     | JObj d =>
         let sv := get d "suggested_coordinates" JNull in
         let* sug := if truthy sv then let* t := tuple sv in ret (Some t) else ret None in
         ret (mkConfirmResp (truthy (get d "confirm" (JBool false))) sug)
     | _ => raise AttributeError
     end)
    (fun _ => mkConfirmResp false None).

(** How the confirmation [while] loop of [_execute_click] is left. *)
Inductive click_loop_exit :=
| LBreak (x y : json)
| LNoAlt
| LRaise (e : exn)
| LCond (attempts : nat) (last : option ConfirmResp) (x y : json).

(** The confirmation loop of [AutomationEngine._execute_click]: [ask k] is
    the answer of the [k]-th [confirm_click] call.  Returns how the loop is
    left and the number of oracle calls made. *)
Fixpoint click_loop (dev : Device) (ask : nat -> ConfirmResp) (fuel max_click_retries attempts : nat)
  (x y : json) (last : option ConfirmResp) : click_loop_exit * nat :=
  match fuel with
  | O => (LCond attempts last x y, 0%nat)
  | S f =>
      if (attempts <? max_click_retries)%nat then
        let r := ask attempts in
        if confirm r then (LBreak x y, 1%nat)
        else
          match suggested r with
          | Some (s :: rest) =>
              match s :: rest with
              | [x'; y'] =>
                  match gesture dev [x'; y'] with
                  | inl _ =>
                      let '(e, c) := click_loop dev ask f max_click_retries (S attempts) x' y' (Some r) in
                      (e, S c)
                  | inr e => (LRaise e, 1%nat)
                  end
              | _ => (LRaise ValueError, 1%nat)
              end
          | _ => (LNoAlt, 1%nat)
          end
      else (LCond attempts last x y, 0%nat)
  end.

(** [AutomationEngine._execute_click]; [vision] is [None] when no
    VisionEngine is attached.  Returns the result and the number of
    confirmation calls made. *)
Definition execute_click (dev : Device) (vision : option (nat -> ConfirmResp))
  (max_click_retries : nat) (p : ActionPlan) : ExecutionResult * nat :=
  let click (x y : json) : Exc ExecutionResult :=
    let* _ := gesture dev [x; y] in ret (succeeded (Some (frame dev))) in
  (* up to the pointer's move to the proposed point: an early result, or
     the point to negotiate *)
  let pre : Exc (ExecutionResult + (json * json)) :=
    if negb (coords_truthy (coordinates p)) then
      ret (inl (failed "No coordinates provided for click action"))
    else
      let* xy := unpack2 (match coordinates p with Some c => c | None => [] end) in
      let '(x, y) := xy in
      let '(sw, sh) := screen_size dev in
      let* inx := le_chain (JNum 0) x (JNum (inject_Z sw)) in
      let* inb := if inx then le_chain (JNum 0) y (JNum (inject_Z sh)) else ret false in
      if negb inb then ret (inl (failed "Coordinates outside screen bounds")) else
      let* _ := gesture dev [x; y] in
      ret (inr (x, y)) in
  let '(r, calls) :=
    match pre with
    | inr e => (inr e, 0%nat)
    | inl (inl early) => (ret early, 0%nat)
    | inl (inr (x, y)) =>
        match vision with
        | None => (click x y, 0%nat)
        | Some ask =>
            let '(e, calls) := click_loop dev ask max_click_retries max_click_retries 0 x y None in
            let r :=
              match e with
              | LBreak x' y' => click x' y'
              | LNoAlt => ret (failed "Click not confirmed by AI")
              | LRaise ex => raise ex
              | LCond attempts last x' y' =>
                  if (max_click_retries <=? attempts)%nat then
                    match last with
                    | None => raise UnboundLocalError
                    | Some r =>
                        if negb (confirm r)
                        then ret (failed "Max confirmation attempts reached without approval")
                        else click x' y'
                    end
                  else click x' y'
              end in
            (r, calls)
        end
    end in
  (try_except r (fun e => failed ("Click execution failed: " ++ exn_str e)), calls).

(** The Verifier's answer as [_ask_ai_for_verification] returns it (that
    method catches its own errors, answering [verified=False]). *)
Record VerifyResp := mkVerifyResp {
  verified : json;
  vmessage : string
}.

(** [AutomationEngine._verify_action_success]. *)
Definition verify_action_success (resp : VerifyResp) (r : ExecutionResult) : ExecutionResult :=
  match before_screenshot r, after_screenshot r with
  | Some _, Some _ =>
      if truthy (verified resp) then
        mkExecutionResult (success r) (error_message r) (before_screenshot r)
          (after_screenshot r) (verified resp) (Some (vmessage resp))
      else
        mkExecutionResult false (Some ("Action verification failed: " ++ vmessage resp))
          (before_screenshot r) (after_screenshot r) (verified resp) (Some (vmessage resp))
  | _, _ =>
      mkExecutionResult (success r) (error_message r) (before_screenshot r)
        (after_screenshot r) (JBool false) (Some "Missing screenshots for verification")
  end.

(** The oracle as the automation engine consults it. *)
Record AutomationOracle := mkAutomationOracle {
  ask_confirm : nat -> ConfirmResp;
  ask_verify : VerifyResp
}.

Section Handlers.

(** Whether [re.search(r'from\s+(\d+),(\d+)\s+to\s+(\d+),(\d+)', target)]
    matches, and the four numbers it captures. *)
Variable drag_pattern : string -> option (Z * Z * Z * Z).

Variable dev : Device.

Definition handler (name : string) (body : Exc ExecutionResult) : ExecutionResult :=
  try_except body (fun e => failed (name ++ " execution failed: " ++ exn_str e)).

Definition execute_double_click (p : ActionPlan) : ExecutionResult :=
  handler "Double-click"
    (if negb (coords_truthy (coordinates p))
     then ret (failed "No coordinates provided for double-click action")
     else let* xy := unpack2 (match coordinates p with Some c => c | None => [] end) in
          let* _ := gesture dev [fst xy; snd xy] in
          ret (succeeded (Some (frame dev)))).

Definition execute_right_click (p : ActionPlan) : ExecutionResult :=
  handler "Right-click"
    (if negb (coords_truthy (coordinates p))
     then ret (failed "No coordinates provided for right-click action")
     else let* xy := unpack2 (match coordinates p with Some c => c | None => [] end) in
          let* _ := gesture dev [fst xy; snd xy] in
          ret (succeeded (Some (frame dev)))).

Definition execute_type (p : ActionPlan) : ExecutionResult :=
  handler "Type"
    (if negb (truthy (text p)) then ret (failed "No text provided for type action")
     else let* _ := match text p with JStr _ => ret tt | _ => raise TypeError end in
          let* _ := gesture dev [] in
          ret (succeeded (Some (frame dev)))).

Definition execute_scroll (p : ActionPlan) : ExecutionResult :=
  handler "Scroll"
    (let* _ := lower_v (target_description p) in
     let* _ := gesture dev [] in
     ret (succeeded (Some (frame dev)))).

(** [_execute_wait] and [_execute_verify] attach no before frame. *)
Definition execute_wait (p : ActionPlan) : ExecutionResult :=
  handler "Wait"
    (let* _ := lower_v (target_description p) in ret (result true None)).

Definition execute_verify (p : ActionPlan) : ExecutionResult :=
  handler "Verify" (ret (result true None)).

Definition execute_navigate (p : ActionPlan) : ExecutionResult :=
  handler "Navigate"
    (let* _ := lower_v (target_description p) in
     if coords_truthy (coordinates p) then
       let* xy := unpack2 (match coordinates p with Some c => c | None => [] end) in
       let* _ := gesture dev [fst xy; snd xy] in
       ret (succeeded (Some (frame dev)))
     else
       let* _ := gesture dev [] in
       ret (succeeded (Some (frame dev)))).

Definition execute_hotkey (p : ActionPlan) : ExecutionResult :=
  handler "Hotkey"
    (if negb (truthy (text p)) then ret (failed "No hotkey combination provided")
     else let* _ := match text p with JStr _ => ret tt | _ => raise AttributeError end in
          let* _ := gesture dev [] in
          ret (succeeded (Some (frame dev)))).

(** [_execute_move] attaches no before frame. *)
Definition execute_move (p : ActionPlan) : ExecutionResult :=
  handler "Move"
    (if negb (coords_truthy (coordinates p))
     then ret (failed "No coordinates provided for move action")
     else let* xy := unpack2 (match coordinates p with Some c => c | None => [] end) in
          let* _ := gesture dev [fst xy; snd xy] in
          ret (result true None)).

Definition execute_drag (p : ActionPlan) : ExecutionResult :=
  handler "Drag"
    (let* target := lower_v (target_description p) in
     let* ends :=
       match drag_pattern target with
       | Some (x1, y1, x2, y2) => ret (Some [JNum (inject_Z x1); JNum (inject_Z y1)])
       | None =>
           if coords_truthy (coordinates p) then
             let* xy := unpack2 (match coordinates p with Some c => c | None => [] end) in
             let* _ := mul (fst xy) (JNum 1) in   (* x1 + 100 *)
             let* _ := mul (snd xy) (JNum 1) in   (* y1 + 100 *)
             ret (Some [fst xy; snd xy])
           else ret None
       end in
     match ends with
     | None => ret (failed "No drag coordinates provided")
     | Some start =>
         let* _ := gesture dev start in
         ret (succeeded (Some (frame dev)))
     end).

(** The [if]/[elif] chain of [AutomationEngine.execute_action] choosing the
    handler by [action_type]. *)
Definition dispatch (vision : option AutomationOracle) (max_click_retries : nat)
  (p : ActionPlan) : ExecutionResult :=
  match action_type p with
  | JStr "click" => fst (execute_click dev (option_map ask_confirm vision) max_click_retries p)
  | JStr "double_click" => execute_double_click p
  | JStr "right_click" => execute_right_click p
  | JStr "type" => execute_type p
  | JStr "scroll" => execute_scroll p
  | JStr "wait" => execute_wait p
  | JStr "verify" => execute_verify p
  | JStr "navigate" => execute_navigate p
  | JStr "hotkey" => execute_hotkey p
  | JStr "move" => execute_move p
  | JStr "drag" => execute_drag p
  | _ => failed "Unknown action type"
  end.

(** [AutomationEngine.execute_action].  [estop] is the engine's
    [emergency_stop] flag, [vision] the attached VisionEngine (if any),
    [confirm_hook] the confirmation step ([get_user_confirmation] in the
    source). *)
Definition execute_action (estop : bool) (vision : option AutomationOracle)
  (max_click_retries : nat) (confirm_hook : ActionPlan -> bool) (p : ActionPlan)
  : Exc ExecutionResult :=
  if estop then ret (failed "Emergency stop activated") else
  let* safe := validate_action_safety dev p in
  if negb safe then ret (failed "Action blocked by safety controls") else
  let* needs := requires_confirmation p in
  if needs && negb (confirm_hook p) then ret (failed "User declined confirmation") else
  let r := dispatch vision max_click_retries p in
  let r := mkExecutionResult (success r) (error_message r) (before_screenshot r)
             (Some (frame dev)) (action_verified r) (verification_message r) in
  match vision with
  | Some o => if success r then ret (verify_action_success (ask_verify o) r) else ret r
  | None => ret r
  end.

End Handlers.

(* ------------------------------------------------------------------ *)
(** ** task_controller.py *)

(** [ExecutionResult.error_message], named before [TaskStatus] reuses the
    field name. *)
Definition result_error (r : ExecutionResult) : option string := error_message r.

Module Controller.

(** [@dataclass TaskStatus] (the timing fields are not modelled);
    [current_action] keeps the two values its f-string interpolates. *)
Record TaskStatus := mkTaskStatus {
  is_running : bool;
  is_complete : bool;
  current_iteration : nat;
  total_actions : nat;
  successful_actions : nat;
  failed_actions : nat;
  current_action : option (json * json);
  error_message : option string
}.

(** [TaskStatus(is_running=True, start_time=...)]. *)
Definition initial_status : TaskStatus :=
  mkTaskStatus true false 0 0 0 0 None None.

(** An entry of [failure_history] (the timestamp is not modelled). *)
Record FailureRecord := mkFailureRecord {
  fr_iteration : nat;
  fr_action : ActionPlan;
  fr_error : option string
}.

(** The controller's fields that a run mutates; [completions] logs every
    [_notify_completion(success, message)] call, in order (each one invokes
    every registered completion callback once). *)
Record ControllerState := mkControllerState {
  task_status : TaskStatus;
  context : VisionContext;
  consecutive_failures : nat;
  failure_history : list FailureRecord;
  completions : list (bool * string)
}.

(** What one [_execute_iteration] observes: the screenshot failed, an
    exception was raised inside the iteration's [try] (after the frame was
    captured and possibly after a plan was produced), or the plan was
    executed with the given result. *)
Inductive IterInput :=
| NoScreenshot
| Raised (shot : string) (plan : option ActionPlan)
| Executed (shot : string) (plan : ActionPlan) (r : ExecutionResult).

(** The flags and the iteration seen by one pass of the [while] loop. *)
Record PassInput := mkPassInput {
  paused : bool;
  emergency_stop : bool;
  should_stop : bool;
  iteration : IterInput
}.

Definition set_status (st : ControllerState) (s : TaskStatus) : ControllerState :=
  mkControllerState s (context st) (consecutive_failures st) (failure_history st) (completions st).

Definition set_context (st : ControllerState) (c : VisionContext) : ControllerState :=
  mkControllerState (task_status st) c (consecutive_failures st) (failure_history st) (completions st).

Definition set_failures (st : ControllerState) (n : nat) : ControllerState :=
  mkControllerState (task_status st) (context st) n (failure_history st) (completions st).

Definition notify_completion (st : ControllerState) (ok : bool) (msg : string) : ControllerState :=
  mkControllerState (task_status st) (context st) (consecutive_failures st)
    (failure_history st) (completions st ++ [(ok, msg)])%list.

(** The frame history after appending [f]: at most 10 are kept. *)
Definition push_frame (h : list string) (f : string) : list string :=
  let h' := (h ++ [f])%list in
  if (10 <? List.length h')%nat then tl h' else h'.

(** [TaskController._handle_successful_action]. *)
Definition handle_successful_action (st : ControllerState) (plan : ActionPlan)
  (r : ExecutionResult) : ControllerState :=
  let s := task_status st in
  let c := context st in
  let s' := mkTaskStatus (is_running s) (is_complete s) (current_iteration s)
              (S (total_actions s)) (S (successful_actions s)) (failed_actions s)
              (current_action s) (error_message s) in
  let frames :=
    match after_screenshot r with
    | Some f => push_frame (screenshots_history c) f
    | None => screenshots_history c
    end in
  let c' := mkVisionContext (task_description c) (previous_actions c ++ [plan])%list frames
              (current_screenshot c) (iteration_count c) in
  set_context (set_status st s') c'.

(** [TaskController._handle_failed_action]; the diagnosis and the recovery
    it triggers only narrate and sleep. *)
Definition handle_failed_action (st : ControllerState) (plan : ActionPlan)
  (r : ExecutionResult) : ControllerState :=
  let s := task_status st in
  let s' := mkTaskStatus (is_running s) (is_complete s) (current_iteration s)
              (S (total_actions s)) (successful_actions s) (S (failed_actions s))
              (current_action s) (error_message s) in
  mkControllerState s' (context st) (consecutive_failures st)
    (failure_history st ++ [mkFailureRecord (current_iteration s) plan (result_error r)])%list
    (completions st).

(** [TaskController._apply_failure_recovery], by the seconds it sleeps. *)
Definition apply_failure_recovery (failure_type : json) : Q :=
  match failure_type with
  | JStr "timing" => 2
  | JStr "wrong_element" => 0
  | JStr "ui_change" => 0
  | JStr "loading" => 3
  | JStr "permission" => 0
  | _ => 1
  end.

(** The diagnosis step of [_handle_failed_action]: the Diagnoser is asked
    only when the result carries both frames; the recovery's delay in
    seconds ([reply] and [loads] serve [diagnose_failure]). *)
Definition failure_recovery_delay (r : ExecutionResult) (reply : Exc (option string))
  (loads : string -> Exc json) : Q :=
  match before_screenshot r, after_screenshot r with
  | Some _, Some _ => apply_failure_recovery (diagnose_failure reply loads)
  | _, _ => 0
  end.

(** [TaskController._execute_iteration]: the new state and its boolean. *)
Definition execute_iteration (st : ControllerState) (i : IterInput) : ControllerState * bool :=
  let s := task_status st in
  let n := S (current_iteration s) in
  let st1 := set_status st (mkTaskStatus (is_running s) (is_complete s) n
              (total_actions s) (successful_actions s) (failed_actions s)
              (current_action s) (error_message s)) in
  let observe (shot : string) (plan : option ActionPlan) : ControllerState :=
    let c := context st1 in
    let st2 := set_context st1 (mkVisionContext (task_description c) (previous_actions c)
                 (screenshots_history c) shot n) in
    match plan with
    | None => st2
    | Some p =>
        let s2 := task_status st2 in
        set_status st2 (mkTaskStatus (is_running s2) (is_complete s2) (current_iteration s2)
          (total_actions s2) (successful_actions s2) (failed_actions s2)
          (Some (action_type p, target_description p)) (error_message s2))
    end in
  match i with
  | NoScreenshot => (st1, false)
  | Raised shot plan => (observe shot plan, false)
  | Executed shot plan r =>
      let st2 := observe shot (Some plan) in
      if success r then (handle_successful_action st2 plan r, true)
      else (handle_failed_action st2 plan r, false)
  end.

Definition set_error_stopped (st : ControllerState) (msg : string) : ControllerState :=
  let s := task_status st in
  set_status st (mkTaskStatus false (is_complete s) (current_iteration s) (total_actions s)
    (successful_actions s) (failed_actions s) (current_action s) (Some msg)).

(** [TaskController._handle_emergency_stop]. *)
Definition handle_emergency_stop (st : ControllerState) : ControllerState :=
  notify_completion (set_error_stopped st "Emergency stop activated") false "Emergency stop".

Definition max_failures_message (n : nat) : string := "Max failures reached: " ++ str_nat n.

(** [TaskController._handle_max_failures]. *)
Definition handle_max_failures (st : ControllerState) : ControllerState :=
  notify_completion (set_error_stopped st (max_failures_message (consecutive_failures st)))
    false "Max failures reached".

(** [TaskController._handle_task_completion]. *)
Definition handle_task_completion (st : ControllerState) : ControllerState :=
  let s := task_status st in
  let st' := set_status st (mkTaskStatus false true (current_iteration s) (total_actions s)
               (successful_actions s) (failed_actions s) (current_action s) (error_message s)) in
  match error_message s with
  | Some m => notify_completion st' false m
  | None => notify_completion st' true "Task completed"
  end.

(** How the [while] loop of [_execute_task_loop] is left. *)
Inductive exit_reason := ExitCondition | ExitEmergency | ExitMaxFailures.

(** The [while] loop of [_execute_task_loop]; [env k] is what pass [k]
    sees.  [fuel] bounds the number of passes (a paused task loops without
    consuming iterations); [None] means the loop is still running. *)
Fixpoint task_loop (max_iterations max_failures : nat) (env : nat -> PassInput)
  (fuel k : nat) (st : ControllerState) : ControllerState * option exit_reason :=
  match fuel with
  | O => (st, None)
  | S f =>
      let s := task_status st in
      let inp := env k in
      if (current_iteration s <? max_iterations)%nat && negb (should_stop inp)
         && negb (is_complete s) then
        if paused inp then task_loop max_iterations max_failures env f (S k) st
        else if emergency_stop inp then (handle_emergency_stop st, Some ExitEmergency)
        else
          let '(st', ok) := execute_iteration st (iteration inp) in
          if negb ok then
            let st'' := set_failures st' (S (consecutive_failures st')) in
            if (max_failures <=? consecutive_failures st'')%nat
            then (handle_max_failures st'', Some ExitMaxFailures)
            else task_loop max_iterations max_failures env f (S k) st''
          else task_loop max_iterations max_failures env f (S k) (set_failures st' 0)
      else (st, Some ExitCondition)
  end.

(** The state [execute_task] and the start of [_execute_task_loop] set up. *)
Definition initial_state (task : string) : ControllerState :=
  mkControllerState initial_status (mkVisionContext task [] [] "" 0) 0 [] [].

(** [TaskController._execute_task_loop] from [execute_task]: every exit of
    the [while] loop falls through to [_handle_task_completion].  (The
    [except] clause is not reachable in this model: every step of the loop
    body catches its own exceptions.) *)
Definition run (task : string) (max_iterations max_failures : nat) (env : nat -> PassInput)
  (fuel : nat) : ControllerState * option exit_reason :=
  let '(st, r) := task_loop max_iterations max_failures env fuel 0 (initial_state task) in
  match r with
  | Some _ => (handle_task_completion st, r)
  | None => (st, None)
  end.

End Controller.

(* ------------------------------------------------------------------ *)
(** ** Properties *)

(** *** Python helpers on numbers *)

Lemma num_JNum (q : Q) : num (JNum q) = ret q.
Proof. reflexivity. Qed.

Lemma le_JNum (a b : Q) : le (JNum a) (JNum b) = ret (Qle_bool a b).
Proof. reflexivity. Qed.

Lemma lt_JNum (a b : Q) : lt (JNum a) (JNum b) = ret (negb (Qle_bool b a)).
Proof. reflexivity. Qed.

Lemma le_chain_JNum (a b c : Q) :
  le_chain (JNum a) (JNum b) (JNum c) = ret (Qle_bool a b && Qle_bool b c).
Proof. unfold le_chain; simpl. destruct (Qle_bool a b); reflexivity. Qed.

Lemma mul_JNum (a b : Q) : mul (JNum a) (JNum b) = ret (JNum (a * b)).
Proof. reflexivity. Qed.

Lemma fdiv_int_nonzero (a b : Z) :
  b <> 0%Z -> fdiv_int a b = to_float (inject_Z a / inject_Z b).
Proof. intro Hb. unfold fdiv_int. apply Z.eqb_neq in Hb. now rewrite Hb. Qed.

(** [int()] only depends on the rational value. *)
Lemma trunc_Qeq (q q' : Q) : q == q' -> trunc q = trunc q'.
Proof.
  destruct q as [a b], q' as [a' b']. unfold Qeq, trunc; simpl. intro H.
  rewrite <- (Z.quot_mul_cancel_r a (Zpos b) (Zpos b')) by lia.
  rewrite <- (Z.quot_mul_cancel_r a' (Zpos b') (Zpos b)) by lia.
  rewrite H. f_equal. lia.
Qed.

Lemma trunc_inject_Z (z : Z) : trunc (inject_Z z) = z.
Proof. unfold trunc; simpl. apply Z.quot_1_r. Qed.

Lemma Qle_bool_inject_Z (a b : Z) : Qle_bool (inject_Z a) (inject_Z b) = (a <=? b)%Z.
Proof.
  apply eq_true_iff_eq. rewrite Qle_bool_iff, <- Zle_Qle. now rewrite Z.leb_le.
Qed.

Ltac py_num := repeat (rewrite ?num_JNum, ?le_JNum, ?lt_JNum, ?le_chain_JNum,
                                ?mul_JNum; cbn [bind ret]).

Lemma bind_inl {A B} (m : Exc A) (k : A -> Exc B) (v : B) :
  bind m k = inl v -> exists a, m = inl a /\ k a = inl v.
Proof. destruct m as [a|e]; simpl; [intro H; exists a; auto | discriminate]. Qed.

(** Inverts a hypothesis saying that a computation returned normally. *)
Ltac exc_inv :=
  repeat match goal with
  | H : bind ?m ?k = inl ?v |- _ =>
      let a := fresh "a" in let Hm := fresh "Hm" in let Hk := fresh "Hk" in
      destruct (bind_inl m k v H) as [a [Hm Hk]]; clear H; cbv beta in Hk
  | H : inr _ = inl _ |- _ => discriminate H
  | H : inl _ = inl _ |- _ => injection H; clear H; intro H; try subst
  | H : (if ?b then _ else _) = inl _ |- _ => destruct b eqn:?
  | H : Z.eqb ?x ?x = false |- _ => rewrite Z.eqb_refl in H; discriminate H
  | H : (match ?p with pair _ _ => _ end) = inl _ |- _ => destruct p
  | H : num ?v = inl _ |- _ => progress (cbn [num ret raise] in H)
  | H : num ?v = inr _ |- _ => progress (cbn [num ret raise] in H)
  | H : fdiv_int _ _ = inl _ |- _ => unfold fdiv_int in H
  | H : context [ret ?x] |- _ => progress (unfold ret in H)
  | H : context [raise ?x] |- _ => progress (unfold raise in H)
  end.

(** *** The destructive-keyword confidence check (C2) *)

Definition plan_c2_no_coords : ActionPlan :=
  mkActionPlan (JStr "click") (JStr "Delete file") None JNull (JNum 9) (JStr "") JNull.

Definition plan_c2_off_screen : ActionPlan :=
  mkActionPlan (JStr "click") (JStr "Delete file") (Some [JNum 5000; JNum 5000]) JNull
    (JNum 9) (JStr "") JNull.

Definition screen_1080p : Device := mkDevice (1920, 1080)%Z "frame" true.

(** Claim C2 fails as stated: a destructive-keyword plan with confidence 9
    (so not below 8) is still rejected, by the Oracle Client when a click
    carries no coordinates, and by the Safety Gate when its coordinates lie
    off screen. *)
Lemma C2_counterexample :
  any_in destructive_actions (lower "Delete file") = true /\
  validate_action_plan plan_c2_no_coords = ret false /\
  any_in destructive_keywords (lower "Delete file") = true /\
  validate_action_safety screen_1080p plan_c2_off_screen = ret false /\
  ~ (9 < 8)%Q.
Proof.
  split; [reflexivity|]. split; [vm_compute; reflexivity|].
  split; [reflexivity|]. split; [vm_compute; reflexivity|].
  unfold Qlt; simpl; lia.
Qed.

(** Claim C2 (amended).  For a plan whose description contains a
    destructive keyword (Oracle Client: [destructive_actions]; Safety Gate:
    [destructive_keywords]) and whose confidence [c] lies in [1,10]:
    confidence below 8 is always rejected; and when the remaining checks
    pass (Oracle Client: recognised action type, coordinates on click-family
    actions; Safety Gate: allowed action type, numeric coordinates within
    the screen), the plan is rejected exactly when [c < 8]. *)
Theorem C2_destructive_confidence_threshold :
  (forall p d c,
     target_description p = JStr d -> any_in destructive_actions (lower d) = true ->
     confidence p = JNum c -> (1 <= c <= 10)%Q ->
     ((c < 8)%Q -> validate_action_plan p = ret false) /\
     (in_strs (action_type p) valid_types = true ->
      (in_strs (action_type p) click_actions = true -> coords_truthy (coordinates p) = true) ->
      validate_action_plan p = ret (Qle_bool 8 c))) /\
  (forall dev p d c,
     target_description p = JStr d -> any_in destructive_keywords (lower d) = true ->
     confidence p = JNum c -> (1 <= c <= 10)%Q ->
     in_strs (action_type p) allowed_actions = true ->
     ((c < 8)%Q -> validate_action_safety dev p = ret false) /\
     ((coordinates p = None \/ coordinates p = Some [] \/
       exists x y, coordinates p = Some [JNum x; JNum y] /\
         (0 <= x <= inject_Z (fst (screen_size dev)))%Q /\
         (0 <= y <= inject_Z (snd (screen_size dev)))%Q) ->
      validate_action_safety dev p = ret (Qle_bool 8 c))).
Proof.
  split.
  - intros p d c Hd Hk Hc [H1 H10]. unfold validate_action_plan.
    rewrite Hd, Hc. cbn [lower_v bind ret]. rewrite Hk. py_num.
    assert (Hr : Qle_bool 1 c && Qle_bool c 10 = true)
      by (apply andb_true_intro; split; apply Qle_bool_iff; assumption).
    split.
    + intro Hlt. assert (Qle_bool 8 c = false) as E.
      { destruct (Qle_bool 8 c) eqn:E; [|reflexivity].
        apply Qle_bool_iff in E. exfalso. apply (Qlt_not_le _ _ Hlt E). }
      rewrite E. reflexivity.
    + intros Ht Hcl. destruct (Qle_bool 8 c); cbn [negb]; [|reflexivity].
      rewrite Hr. cbn [negb]. rewrite Ht. cbn [negb].
      destruct (in_strs (action_type p) click_actions); [|reflexivity].
      rewrite Hcl by reflexivity. reflexivity.
  - intros dev p d c Hd Hk Hc [H1 H10] Ha. unfold validate_action_safety.
    assert (Hal : exists s, action_type p = JStr s /\ existsb (String.eqb s) allowed_actions = true).
    { destruct (action_type p); try discriminate. eexists; split; [reflexivity|exact Ha]. }
    destruct Hal as [s [Hs Hsa]]. rewrite Hs. cbn [bind ret]. rewrite Hsa. cbn [negb].
    rewrite Hd. cbn [lower_v bind ret]. rewrite Hk, Hc. py_num.
    split.
    + intro Hlt. assert (Qle_bool 8 c = false) as E.
      { destruct (Qle_bool 8 c) eqn:E; [|reflexivity].
        apply Qle_bool_iff in E. exfalso. apply (Qlt_not_le _ _ Hlt E). }
      rewrite E. reflexivity.
    + intros Hco. destruct (Qle_bool 8 c); cbn [negb]; [|reflexivity].
      destruct Hco as [Hn | [He | [x [y [Hxy [[Hx0 Hx1] [Hy0 Hy1]]]]]]].
      * now rewrite Hn.
      * now rewrite He.
      * rewrite Hxy. cbn [coords_truthy unpack2 bind ret].
        destruct (screen_size dev) as [sw sh]; simpl in *. py_num.
        apply Qle_bool_iff in Hx0, Hx1, Hy0, Hy1.
        rewrite Hx0, Hx1. cbn [andb]. py_num. rewrite Hy0, Hy1. reflexivity.
Qed.

(** *** The Coordinate Mapper (C5, C6) *)

(** Whether [_map_coordinates] reads a numeric pair as ratios. *)
Definition is_ratio_pair (x y : Q) : bool :=
  Qle_bool 0 x && Qle_bool x 1 && (Qle_bool 0 y && Qle_bool y 1).

(** Rounding only depends on the rational value. *)
Lemma float_round_Qeq (p q : Q) : p == q -> float_round p = float_round q.
Proof. intro H. unfold float_round. now rewrite (Qred_complete p q H). Qed.

Lemma round_div_even_exact (n d : Z) :
  (0 < d)%Z -> (n mod d = 0)%Z -> round_div_even n d = (n / d)%Z.
Proof.
  intros Hd Hm. unfold round_div_even. rewrite Hm. cbn [Z.mul].
  destruct d; try lia; reflexivity.
Qed.

Lemma Qred_inject_Z (z : Z) : Qred (inject_Z z) = inject_Z z.
Proof.
  unfold Qred, inject_Z. cbn [Qnum Qden].
  pose proof (Z.ggcd_gcd z 1) as Hg. pose proof (Z.ggcd_correct_divisors z 1) as Hd.
  destruct (Z.ggcd z 1) as [g [p q]]. cbn [fst snd] in *.
  rewrite Z.gcd_1_r in Hg. subst g. destruct Hd as [Hp Hq].
  rewrite Z.mul_1_l in Hp, Hq. subst. reflexivity.
Qed.

(** Integers of magnitude at most [2^53] are doubles. *)
Lemma float_round_int (z : Z) : (Z.abs z <= 2 ^ 53)%Z -> float_round (inject_Z z) == inject_Z z.
Proof.
  intro Hz. unfold float_round.
  rewrite Qred_inject_Z. cbn [Qnum Qden inject_Z].
  destruct (Z.abs z =? 0)%Z eqn:E0.
  { apply Z.eqb_eq in E0. assert (z = 0%Z) by lia. subst. reflexivity. }
  apply Z.eqb_neq in E0.
  set (a := Z.abs z) in *.
  assert (Ha : (0 < a)%Z) by lia.
  destruct (Z.log2_spec a Ha) as [Hl1 Hl2].
  assert (Hk : (Z.log2 a <= 53)%Z).
  { rewrite <- (Z.log2_pow2 53) by lia. apply Z.log2_le_mono; exact Hz. }
  assert (Hk0 : (0 <= Z.log2 a)%Z) by apply Z.log2_nonneg.
  change (Z.log2 (Z.pos 1)) with 0%Z. rewrite Z.sub_0_r.
  assert (Eg : ge_pow2 a 1 (Z.log2 a) = true).
  { unfold ge_pow2. rewrite (proj2 (Z.leb_le 0 _) Hk0). apply Z.leb_le. lia. }
  rewrite Eg.
  assert (Hs : (a * Z.sgn z = z)%Z) by apply Z.abs_sgn.
  assert (Hdiv1 : forall n, round_div_even n 1 = n).
  { intro n. rewrite round_div_even_exact by (try lia; apply Z.mod_1_r). apply Z.div_1_r. }
  destruct (Z.eq_dec (Z.log2 a) 53) as [H53 | H53].
  - assert (Ea : a = (2 ^ 53)%Z) by (rewrite H53 in Hl1; lia).
    rewrite H53. cbn -[Z.pow round_div_even].
    change (match 2 ^ 1 with 0 => 0 | Z.pos y' => Z.pos y' | Z.neg y' => Z.neg y' end)%Z
      with (2 ^ 1)%Z.
    rewrite (round_div_even_exact a (2 ^ 1)) by (try rewrite Ea; reflexivity).
    assert (E2 : (a / 2 ^ 1 = 2 ^ 52)%Z) by (rewrite Ea; reflexivity).
    rewrite E2. rewrite Ea in Hs.
    replace (Z.sgn z * 2 ^ 52 * 2 ^ 1)%Z with z; [reflexivity|].
    rewrite <- Hs at 1. change (2 ^ 53)%Z with (2 ^ 52 * 2 ^ 1)%Z. ring.
  - assert (He : Z.max (-1074) (Z.log2 a - 52) = (Z.log2 a - 52)%Z) by lia.
    rewrite He.
    destruct (0 <=? Z.log2 a - 52)%Z eqn:Ee.
    + apply Z.leb_le in Ee. assert (E52 : (Z.log2 a - 52 = 0)%Z) by lia. rewrite E52.
      rewrite Z.mul_1_l, Z.pow_0_r, Hdiv1, Z.mul_1_r.
      replace (Z.sgn z * a)%Z with z; [reflexivity|]. rewrite <- Hs at 1. ring.
    + apply Z.leb_gt in Ee. rewrite Hdiv1.
      unfold Qeq. cbn [Qnum Qden inject_Z].
      rewrite Z2Pos.id by (apply Z.pow_pos_nonneg; lia).
      rewrite <- Hs at 2. ring.
Qed.

(** A result equal to an integer of magnitude at most [2^53] is converted
    exactly, without overflow. *)
Lemma to_float_int (q : Q) (z : Z) :
  q == inject_Z z -> (Z.abs z <= 2 ^ 53)%Z -> to_float q = ret (float_round (inject_Z z)).
Proof.
  intros Hq Hz. unfold to_float. rewrite (float_round_Qeq _ _ Hq).
  destruct (Qle_bool (inject_Z (2 ^ 1024)) (Qabs (float_round (inject_Z z)))) eqn:B;
    [|reflexivity].
  exfalso. apply Qle_bool_iff in B. rewrite (float_round_int z Hz) in B.
  change (Qabs (inject_Z z)) with (inject_Z (Z.abs z)) in B.
  rewrite <- Zle_Qle in B.
  assert (H : (2 ^ 53 < 2 ^ 1024)%Z) by (apply Z.pow_lt_mono_r; lia).
  lia.
Qed.

(** [w / w] is the float [1.0]. *)
Lemma fdiv_int_same (w : Z) : w <> 0%Z -> fdiv_int w w = ret (float_round (inject_Z 1)).
Proof.
  intro Hw. rewrite fdiv_int_nonzero by exact Hw. apply to_float_int; [|lia].
  assert (Hw' : ~ inject_Z w == 0)
    by (intro H; apply Hw; apply (proj1 (inject_Z_injective w 0)); exact H).
  field. exact Hw'.
Qed.

(** [v * 1.0] for an int [v] of magnitude at most [2^53]. *)
Lemma fmul_int_unit (z : Z) :
  (Z.abs z <= 2 ^ 53)%Z ->
  fmul (inject_Z z) (float_round (inject_Z 1)) = ret (float_round (inject_Z z)).
Proof.
  intro Hz. unfold fmul.
  rewrite (to_float_int (inject_Z z) z) by (reflexivity || exact Hz).
  rewrite (to_float_int (float_round (inject_Z 1)) 1)
    by (apply float_round_int || idtac; lia).
  cbn [bind ret]. apply to_float_int; [|exact Hz].
  rewrite (float_round_int z Hz), (float_round_int 1) by lia. ring.
Qed.

Lemma trunc_float_round_int (z : Z) :
  (Z.abs z <= 2 ^ 53)%Z -> trunc (float_round (inject_Z z)) = z.
Proof.
  intro Hz. rewrite (trunc_Qeq _ _ (float_round_int z Hz)). apply trunc_inject_Z.
Qed.

(** [_map_coordinates] on a numeric pair. *)
Lemma map_coordinates_num (x y : Q) (shot_w shot_h screen_w screen_h : Z) :
  map_coordinates [JNum x; JNum y] (shot_w, shot_h) (screen_w, screen_h) =
  try_except
    (let r := is_ratio_pair x y in
     let* x' := if r then fmul x (inject_Z shot_w) else ret x in
     let* y' := if r then fmul y (inject_Z shot_h) else ret y in
     let* scale_x := fdiv_int screen_w shot_w in
     let* scale_y := fdiv_int screen_h shot_h in
     let* px := fmul x' scale_x in
     let* py := fmul y' scale_y in
     ret [JNum (inject_Z (trunc px)); JNum (inject_Z (trunc py))])
    (fun _ => [JNum x; JNum y]).
Proof.
  unfold map_coordinates, map_coordinates_body, is_ratio_pair.
  py_num. cbv zeta.
  destruct (Qle_bool 0 x && Qle_bool x 1) eqn:Ex; cbn [andb];
    destruct (Qle_bool 0 y && Qle_bool y 1); reflexivity.
Qed.

(** Claim C5: a coordinate pair with both components in [0,1] is a ratio
    pair: each component is multiplied (as a float) by the screenshot's
    width or height, once, and the product is then scaled to the screen.
    Any other pair is taken as screenshot pixels and only scaled.  The
    parser gives the ratio form ([coordinates_pct]) precedence over
    [coordinates]. *)
Theorem C5_ratio_converted_once :
  (forall x y shot_w shot_h screen_w screen_h,
     ((0 <= x <= 1)%Q /\ (0 <= y <= 1)%Q ->
      map_coordinates [JNum x; JNum y] (shot_w, shot_h) (screen_w, screen_h) =
      try_except
        (let* x' := fmul x (inject_Z shot_w) in
         let* y' := fmul y (inject_Z shot_h) in
         let* scale_x := fdiv_int screen_w shot_w in
         let* scale_y := fdiv_int screen_h shot_h in
         let* px := fmul x' scale_x in
         let* py := fmul y' scale_y in
         ret [JNum (inject_Z (trunc px)); JNum (inject_Z (trunc py))])
        (fun _ => [JNum x; JNum y])) /\
     (~ ((0 <= x <= 1)%Q /\ (0 <= y <= 1)%Q) ->
      map_coordinates [JNum x; JNum y] (shot_w, shot_h) (screen_w, screen_h) =
      try_except
        (let* scale_x := fdiv_int screen_w shot_w in
         let* scale_y := fdiv_int screen_h shot_h in
         let* px := fmul x scale_x in
         let* py := fmul y scale_y in
         ret [JNum (inject_Z (trunc px)); JNum (inject_Z (trunc py))])
        (fun _ => [JNum x; JNum y]))) /\
  (forall (loads : string -> Exc json) t kv a b,
     loads (slice t (find "{"%char t) (rfind "}"%char t + 1)) = ret (JObj kv) ->
     get kv "coordinates_pct" JNull = JArr [a; b] ->
     exists p, parse_action_response loads (Some t) = ret p /\ coordinates p = Some [a; b]).
Proof.
  split.
  - intros x y sw sh scw sch. rewrite map_coordinates_num.
    unfold is_ratio_pair. split.
    + intros [[Hx0 Hx1] [Hy0 Hy1]]. apply Qle_bool_iff in Hx0, Hx1, Hy0, Hy1.
      rewrite Hx0, Hx1, Hy0, Hy1. reflexivity.
    + intro Hn.
      assert (E : Qle_bool 0 x && Qle_bool x 1 && (Qle_bool 0 y && Qle_bool y 1) = false).
      { destruct (Qle_bool 0 x) eqn:E1, (Qle_bool x 1) eqn:E2,
                 (Qle_bool 0 y) eqn:E3, (Qle_bool y 1) eqn:E4; try reflexivity.
        exfalso. apply Hn. apply Qle_bool_iff in E1, E2, E3, E4. tauto. }
      rewrite E. reflexivity.
  - intros loads t kv a b Hl Hp. unfold parse_action_response. rewrite Hl.
    cbn [bind ret]. rewrite Hp. cbn [truthy len bind ret List.length negb Nat.eqb tuple].
    eexists. split; [reflexivity|reflexivity].
Qed.

(** Claim C6 fails as stated: with equal screen and screenshot sizes the
    integer pixel coordinate (1, 1) is read as a ratio pair and sent to
    (1920, 1080); with a halving scale the pixel 3 becomes 1 (the product
    1.5 is truncated), not 3 x 0.5; and the float arithmetic maps 45 at
    1200 -> 1680 to 62, while 45 x 1680/1200 is exactly 63. *)
Lemma C6_counterexample :
  map_coordinates [JNum 1; JNum 1] (1920, 1080)%Z (1920, 1080)%Z = [JNum 1920; JNum 1080] /\
  [JNum 1920; JNum 1080] <> [JNum 1; JNum 1] /\
  map_coordinates [JNum 3; JNum 3] (3840, 2160)%Z (1920, 1080)%Z = [JNum 1; JNum 1] /\
  ~ (1 == 3 * (1920 # 3840))%Q /\
  map_coordinates [JNum 45; JNum 45] (1200, 1200)%Z (1680, 1680)%Z = [JNum 62; JNum 62] /\
  (45 * (1680 # 1200) == 63)%Q.
Proof.
  split; [vm_compute; reflexivity|]. split; [discriminate|].
  split; [vm_compute; reflexivity|]. split; [vm_compute; discriminate|].
  split; [vm_compute; reflexivity|]. vm_compute. reflexivity.
Qed.

(** Claim C6 (amended).  When the screen size equals the screenshot size,
    an integer pixel pair with components of magnitude at most [2^53] is
    returned unchanged unless both components lie in [0,1] (such a pair is
    read as ratios).  Otherwise each axis is mapped to
    [int(v' * (screen/screenshot))] in double-precision floats: [v'] is the
    component after the ratio conversion (a float product, applied to both
    components together or to neither), the quotient and the product are
    rounded to the nearest double, and [int] truncates toward zero.  On an
    internal failure (a zero screenshot dimension, a non-numeric component,
    a tuple that is not a pair) the input is returned unchanged. *)
Theorem C6_mapper_identity_and_scaling :
  (forall (w h x y : Z), w <> 0%Z -> h <> 0%Z ->
     (Z.abs x <= 2 ^ 53)%Z -> (Z.abs y <= 2 ^ 53)%Z ->
     ~ ((0 <= x <= 1)%Z /\ (0 <= y <= 1)%Z) ->
     map_coordinates [JNum (inject_Z x); JNum (inject_Z y)] (w, h) (w, h) =
     [JNum (inject_Z x); JNum (inject_Z y)]) /\
  (forall x y shot_w shot_h screen_w screen_h,
     map_coordinates [JNum x; JNum y] (shot_w, shot_h) (screen_w, screen_h) =
     try_except
       (let r := is_ratio_pair x y in
        let* x' := if r then fmul x (inject_Z shot_w) else ret x in
        let* y' := if r then fmul y (inject_Z shot_h) else ret y in
        let* scale_x := fdiv_int screen_w shot_w in
        let* scale_y := fdiv_int screen_h shot_h in
        let* px := fmul x' scale_x in
        let* py := fmul y' scale_y in
        ret [JNum (inject_Z (trunc px)); JNum (inject_Z (trunc py))])
       (fun _ => [JNum x; JNum y])) /\
  (forall c shot screen,
     (fst shot = 0%Z \/ snd shot = 0%Z \/ List.length c <> 2%nat \/
      (exists v, In v c /\ num v = raise TypeError)) ->
     map_coordinates c shot screen = c).
Proof.
  split; [|split].
  - intros w h x y Hw Hh Hx Hy Hn. rewrite map_coordinates_num.
    unfold is_ratio_pair.
    change 0%Q with (inject_Z 0). change 1%Q with (inject_Z 1).
    rewrite !Qle_bool_inject_Z.
    assert (E : ((0 <=? x) && (x <=? 1) && ((0 <=? y) && (y <=? 1)))%Z = false).
    { destruct (0 <=? x)%Z eqn:E1, (x <=? 1)%Z eqn:E2, (0 <=? y)%Z eqn:E3, (y <=? 1)%Z eqn:E4;
        try reflexivity.
      exfalso. apply Hn. apply Z.leb_le in E1, E2, E3, E4. lia. }
    rewrite E. cbv zeta. cbn [bind ret].
    rewrite (fdiv_int_same w Hw), (fdiv_int_same h Hh). cbn [bind ret].
    rewrite (fmul_int_unit x Hx), (fmul_int_unit y Hy). cbn [bind ret try_except].
    now rewrite (trunc_float_round_int x Hx), (trunc_float_round_int y Hy).
  - intros x y sw sh scw sch. apply map_coordinates_num.
  - intros c [sw sh] [scw sch] H. unfold map_coordinates, try_except.
    destruct (map_coordinates_body c (sw, sh) (scw, sch)) eqn:E; [|reflexivity].
    exfalso. unfold map_coordinates_body in E.
    destruct c as [|jx [|jy [|? ?]]]; try discriminate E.
    simpl in H.
    destruct H as [H | [H | [H | [v [Hin Hv]]]]].
    + subst sw. unfold le_chain, le in E. exc_inv.
    + subst sh. unfold le_chain, le in E. exc_inv.
    + exact (H eq_refl).
    + unfold le_chain, le in E.
      destruct Hin as [-> | [-> | []]]; exc_inv; congruence.
Qed.

(** *** The Oracle Client's fallback (C4) *)

Lemma fallback_is_valid : validate_action_plan create_fallback_action = ret true.
Proof. vm_compute. reflexivity. Qed.

(** Claim C4: [analyze_screenshot] always returns an ActionPlan (no
    exception leaves it); on a transport failure, on a response whose
    brace-delimited text does not decode, and on a plan that fails
    validation, it returns the fixed fallback: action [wait], confidence 1,
    and a reasoning that says "fallback". *)
Theorem C4_analyze_never_raises :
  forall str_v io shot ctx screen,
    (analyze_screenshot str_v io shot ctx screen = create_fallback_action \/
     analyze_body str_v io shot ctx screen = ret (analyze_screenshot str_v io shot ctx screen)) /\
    (forall m e,
       build_context_messages str_v ctx (b64 shot) screen = ret m ->
       complete io m = raise e ->
       analyze_screenshot str_v io shot ctx screen = create_fallback_action) /\
    (forall m t,
       build_context_messages str_v ctx (b64 shot) screen = ret m ->
       complete io m = ret (Some t) ->
       loads io (slice t (find "{"%char t) (rfind "}"%char t + 1)) = raise JSONDecodeError ->
       analyze_screenshot str_v io shot ctx screen = create_fallback_action) /\
    (forall m content p,
       build_context_messages str_v ctx (b64 shot) screen = ret m ->
       complete io m = ret content ->
       parse_action_response (loads io) content = ret p ->
       validate_action_plan (map_plan_coordinates shot screen p) <> ret true ->
       analyze_screenshot str_v io shot ctx screen = create_fallback_action) /\
    action_type create_fallback_action = JStr "wait" /\
    confidence create_fallback_action = JNum 1 /\
    contains "fallback" (lower "Vision analysis failed, taking safe fallback action") = true /\
    reasoning create_fallback_action = JStr "Vision analysis failed, taking safe fallback action".
Proof.
  intros str_v io shot ctx screen. unfold analyze_screenshot, try_except.
  split; [|split; [|split; [|split]]].
  - destruct (analyze_body str_v io shot ctx screen); [right; reflexivity | left; reflexivity].
  - intros m e Hm Hc. unfold analyze_body. rewrite Hm. cbn [bind ret]. rewrite Hc. reflexivity.
  - intros m t Hm Hc Hl. unfold analyze_body. rewrite Hm. cbn [bind ret]. rewrite Hc.
    cbn [bind ret]. unfold parse_action_response. rewrite Hl. cbn [bind ret].
    reflexivity.
  - intros m content p Hm Hc Hp Hv. unfold analyze_body. rewrite Hm. cbn [bind ret].
    rewrite Hc. cbn [bind ret]. rewrite Hp. cbn [bind ret].
    destruct (validate_action_plan (map_plan_coordinates shot screen p)) as [[|]|]; cbn [bind].
    + exfalso. exact (Hv eq_refl).
    + reflexivity.
    + reflexivity.
  - repeat split; reflexivity.
Qed.

(** *** The Click Confirmation Negotiator (C1) *)

(** A non-confirming answer that carries a numeric alternative point. *)
Definition alt_answer (r : ConfirmResp) : Prop :=
  confirm r = false /\ exists a b, suggested r = Some [JNum a; JNum b].

(** An answer without an alternative ([if suggested:] is false). *)
Definition no_alternative (r : ConfirmResp) : Prop :=
  match suggested r with Some (_ :: _) => False | _ => True end.

Section Negotiator.

Variable dev : Device.
Variable ask : nat -> ConfirmResp.
Variable max_click_retries : nat.
Hypothesis Hdev : gestures_ok dev = true.

Lemma gesture_num (a b : Q) : gesture dev [JNum a; JNum b] = ret tt.
Proof. unfold gesture. simpl. now rewrite Hdev. Qed.

Lemma click_loop_calls_le : forall f a x y last,
  (snd (click_loop dev ask f max_click_retries a x y last) <= f)%nat.
Proof.
  induction f as [|f IH]; intros a x y last; simpl; [lia|].
  destruct (a <? max_click_retries)%nat; [|simpl; lia].
  destruct (confirm (ask a)); [simpl; lia|].
  destruct (suggested (ask a)) as [[|s [|s' [|s'' rest]]]|]; simpl; try lia.
  destruct (gesture dev [s; s']); simpl; [|lia].
  specialize (IH (S a) s s' (Some (ask a))).
  destruct (click_loop dev ask f max_click_retries (S a) s s' (Some (ask a))). simpl in *. lia.
Qed.

(** Run of the loop when every answer confirms or offers an alternative. *)
Lemma click_loop_outcome : forall f a x y last,
  (a + f = max_click_retries)%nat ->
  (forall k, (a <= k < max_click_retries)%nat -> confirm (ask k) = true \/ alt_answer (ask k)) ->
  match fst (click_loop dev ask f max_click_retries a x y last) with
  | LBreak _ _ => exists k, (a <= k < max_click_retries)%nat /\ confirm (ask k) = true
  | LCond a' last' _ _ =>
      a' = max_click_retries /\
      (forall k, (a <= k < max_click_retries)%nat -> confirm (ask k) = false) /\
      (f = O -> last' = last) /\
      ((0 < f)%nat -> exists r, last' = Some r /\ confirm r = false)
  | _ => False
  end.
Proof.
  induction f as [|f IH]; intros a x y last Hf Hans; simpl.
  - repeat split; try lia; intros; lia.
  - assert (Ha : (a <? max_click_retries)%nat = true) by (apply Nat.ltb_lt; lia).
    rewrite Ha.
    destruct (confirm (ask a)) eqn:Ec.
    + simpl. exists a. split; [lia|exact Ec].
    + destruct (Hans a ltac:(lia)) as [Hc | [_ [u [v Hs]]]]; [congruence|].
      rewrite Hs. rewrite gesture_num.
      specialize (IH (S a) (JNum u) (JNum v) (Some (ask a)) ltac:(lia)
                    ltac:(intros k Hk; apply Hans; lia)).
      destruct (click_loop dev ask f max_click_retries (S a) (JNum u) (JNum v) (Some (ask a)))
        as [e c] eqn:El.
      simpl in *. destruct e; try exact IH.
      * destruct IH as [k [Hk Hck]]. exists k. split; [lia|exact Hck].
      * destruct IH as [H1 [H2 [H3 H4]]]. split; [exact H1|]. split.
        { intros k Hk. destruct (Nat.eq_dec k a) as [->|Hne]; [exact Ec|]. apply H2. lia. }
        split; [discriminate|]. intros _.
        destruct f as [|f'].
        -- exists (ask a). split; [apply H3; reflexivity|exact Ec].
        -- apply H4. lia.
Qed.

Lemma click_loop_all_alt_calls : forall f a x y last,
  (a + f = max_click_retries)%nat ->
  (forall k, (a <= k < max_click_retries)%nat -> alt_answer (ask k)) ->
  snd (click_loop dev ask f max_click_retries a x y last) = f.
Proof.
  induction f as [|f IH]; intros a x y last Hf Hans; simpl; [reflexivity|].
  assert (Ha : (a <? max_click_retries)%nat = true) by (apply Nat.ltb_lt; lia).
  rewrite Ha. destruct (Hans a ltac:(lia)) as [Ec [u [v Hs]]]. rewrite Ec, Hs, gesture_num.
  specialize (IH (S a) (JNum u) (JNum v) (Some (ask a)) ltac:(lia) ltac:(intros k Hk; apply Hans; lia)).
  destruct (click_loop dev ask f max_click_retries (S a) (JNum u) (JNum v) (Some (ask a))).
  simpl in *. lia.
Qed.

Lemma click_loop_no_alt : forall f a k x y last,
  (a + f = max_click_retries)%nat -> (a <= k < max_click_retries)%nat ->
  (forall j, (a <= j < k)%nat -> alt_answer (ask j)) ->
  confirm (ask k) = false -> no_alternative (ask k) ->
  click_loop dev ask f max_click_retries a x y last = (LNoAlt, S (k - a)).
Proof.
  induction f as [|f IH]; intros a k x y last Hf Hk Hbefore Hc Hn; [lia|]. simpl.
  assert (Ha : (a <? max_click_retries)%nat = true) by (apply Nat.ltb_lt; lia).
  rewrite Ha.
  destruct (Nat.eq_dec a k) as [<-|Hne].
  - rewrite Hc. unfold no_alternative in Hn.
    rewrite Nat.sub_diag.
    destruct (suggested (ask a)) as [[|s rest]|]; [reflexivity|contradiction|reflexivity].
  - destruct (Hbefore a ltac:(lia)) as [Ec [u [v Hs]]]. rewrite Ec, Hs, gesture_num.
    rewrite (IH (S a) k (JNum u) (JNum v) (Some (ask a))); try lia.
    + cbn. f_equal. lia.
    + intros j Hj. apply Hbefore. lia.
    + exact Hc.
    + exact Hn.
Qed.

End Negotiator.

Definition max_attempts_failure : ExecutionResult :=
  failed "Max confirmation attempts reached without approval".

(** Claim C1: with a VisionEngine attached and an on-screen click point,
    the negotiation inside [_execute_click] makes at most
    [max_click_retries + 1] confirmation calls (in fact at most
    [max_click_retries]); when every answer confirms or offers an
    alternative, the click fails with "Max confirmation attempts reached
    without approval" exactly when none of the [max_click_retries] answers
    confirms, and when all of them offer alternatives it fails so after
    [max_click_retries] calls; a non-confirming answer without alternative
    aborts at once with "Click not confirmed by AI". *)
Theorem C1_negotiator_bounded :
  forall dev ask max_click_retries p x y,
    (1 <= max_click_retries)%nat ->
    gestures_ok dev = true ->
    coordinates p = Some [JNum x; JNum y] ->
    (0 <= x <= inject_Z (fst (screen_size dev)))%Q ->
    (0 <= y <= inject_Z (snd (screen_size dev)))%Q ->
    let '(r, calls) := execute_click dev (Some ask) max_click_retries p in
    (calls <= max_click_retries + 1)%nat /\
    ((forall k, (k < max_click_retries)%nat -> confirm (ask k) = true \/ alt_answer (ask k)) ->
     (r = max_attempts_failure <-> forall k, (k < max_click_retries)%nat -> confirm (ask k) = false)) /\
    ((forall k, (k < max_click_retries)%nat -> alt_answer (ask k)) ->
     r = max_attempts_failure /\ calls = max_click_retries) /\
    (forall k, (k < max_click_retries)%nat ->
     (forall j, (j < k)%nat -> alt_answer (ask j)) ->
     confirm (ask k) = false -> no_alternative (ask k) ->
     r = failed "Click not confirmed by AI" /\ calls = S k).
Proof.
  intros dev ask n p x y Hn Hdev Hc Hx Hy.
  unfold execute_click. rewrite Hc. cbn [coords_truthy negb unpack2 bind ret].
  destruct (screen_size dev) as [sw sh] eqn:Hsz. simpl in Hx, Hy.
  destruct Hx as [Hx0 Hx1], Hy as [Hy0 Hy1].
  apply Qle_bool_iff in Hx0, Hx1, Hy0, Hy1.
  py_num. rewrite Hx0, Hx1. cbn [andb]. py_num. rewrite Hy0, Hy1. cbn [negb].
  rewrite (gesture_num dev Hdev). cbn [bind ret andb negb].
  pose proof (click_loop_calls_le dev ask n n 0 (JNum x) (JNum y) None) as Hle.
  destruct (click_loop dev ask n n 0 (JNum x) (JNum y) None) as [e calls] eqn:El.
  simpl in Hle.
  (* the click after a confirmation never yields the max-attempts failure *)
  assert (Hclick : forall u v,
    try_except (let* _ := gesture dev [u; v] in ret (succeeded (Some (frame dev))))
      (fun ex => failed ("Click execution failed: " ++ exn_str ex)) <> max_attempts_failure).
  { intros u v H. unfold try_except in H.
    destruct (gesture dev [u; v]) as [g|ex]; simpl in H;
      cbv [max_attempts_failure failed result succeeded] in H; discriminate. }
  split; [lia|]. split; [|split].
  - intro Hans.
    pose proof (click_loop_outcome dev ask n Hdev n 0 (JNum x) (JNum y) None
                  ltac:(lia) ltac:(intros k Hk; apply Hans; lia)) as Ho.
    rewrite El in Ho. simpl in Ho.
    destruct e; try contradiction.
    + split.
      * intro Hr. exfalso. exact (Hclick _ _ Hr).
      * intro Hall. destruct Ho as [k [Hk Hck]]. rewrite (Hall k ltac:(lia)) in Hck. discriminate.
    + destruct Ho as [-> [Hall [_ Hlast]]].
      destruct (Hlast ltac:(lia)) as [r [-> Hr]].
      rewrite Nat.leb_refl, Hr. cbn [negb].
      split; [intros _ k Hk; apply Hall; lia | intros _; reflexivity].
  - intro Hall.
    pose proof (click_loop_outcome dev ask n Hdev n 0 (JNum x) (JNum y) None
                  ltac:(lia) ltac:(intros k Hk; right; apply Hall; lia)) as Ho.
    pose proof (click_loop_all_alt_calls dev ask n Hdev n 0 (JNum x) (JNum y) None
                  ltac:(lia) ltac:(intros k Hk; apply Hall; lia)) as Hcalls.
    rewrite El in Ho, Hcalls. simpl in Ho, Hcalls.
    destruct e; try contradiction.
    + destruct Ho as [k [Hk Hck]]. destruct (Hall k ltac:(lia)) as [Hf _]. congruence.
    + destruct Ho as [-> [_ [_ Hlast]]].
      destruct (Hlast ltac:(lia)) as [r [-> Hr]].
      rewrite Nat.leb_refl, Hr. cbn [negb]. split; [reflexivity|exact Hcalls].
  - intros k Hk Hbefore Hck Hnk.
    rewrite (click_loop_no_alt dev ask n Hdev n 0 k (JNum x) (JNum y) None) in El;
      try lia; try assumption.
    + injection El as <- <-. split; [reflexivity|lia].
    + intros j Hj. apply Hbefore. lia.
Qed.

(** *** Verification after actuation (C7) *)

Definition no_drag_pattern (_ : string) : option (Z * Z * Z * Z) := None.

(** An oracle that confirms every click and reports every action as not
    verified. *)
Definition sceptical_oracle : AutomationOracle :=
  mkAutomationOracle (fun _ => mkConfirmResp true None)
    (mkVerifyResp (JBool false) "No visible change").

Definition plan_wait : ActionPlan :=
  mkActionPlan (JStr "wait") (JStr "Wait for page to load") None JNull (JNum 5)
    (JStr "") JNull.

Definition plan_type : ActionPlan :=
  mkActionPlan (JStr "type") (JStr "Type hello into the search box") None (JStr "hello")
    (JNum 7) (JStr "") JNull.

(** Claim C7 fails as stated: with a VisionEngine attached, a [wait] action
    whose Verifier outcome is "not verified" ([action_verified = False]) is
    not downgraded: [_execute_wait] attaches no before frame, so
    [_verify_action_success] takes its "Missing screenshots" branch and the
    result stays successful. *)
Lemma C7_counterexample :
  match execute_action no_drag_pattern screen_1080p false (Some sceptical_oracle) 3
          get_user_confirmation plan_wait with
  | inl r =>
      success r = true /\ action_verified r = JBool false /\
      after_screenshot r = Some "frame" /\ before_screenshot r = None /\
      verification_message r = Some "Missing screenshots for verification"
  | inr _ => False
  end.
Proof. vm_compute. repeat split. Qed.

(** Claim C7 (amended).  Let an action pass the Safety Gate and the
    confirmation step with a VisionEngine attached, and let its handler
    report success.  If the handler's result carries a before frame (the
    after frame is always taken), the Verifier's answer decides: a falsy
    [verified] downgrades the result to [success = False] with error
    "Action verification failed: <message>", a truthy one keeps it
    successful.  The [wait], [verify] and [move] handlers attach no before
    frame; when the handler attaches none, the result stays successful with
    [action_verified = False] and "Missing screenshots for verification". *)
Theorem C7_verification_downgrade :
  (forall dp dev vision max_click_retries p,
     In (action_type p) [JStr "wait"; JStr "verify"; JStr "move"] ->
     before_screenshot (dispatch dp dev vision max_click_retries p) = None) /\
  (forall dp dev o max_click_retries hook p needs,
    validate_action_safety dev p = ret true ->
    requires_confirmation p = ret needs ->
    needs && negb (hook p) = false ->
    success (dispatch dp dev (Some o) max_click_retries p) = true ->
    exists r,
      execute_action dp dev false (Some o) max_click_retries hook p = ret r /\
      after_screenshot r = Some (frame dev) /\
      (before_screenshot (dispatch dp dev (Some o) max_click_retries p) <> None ->
         (truthy (verified (ask_verify o)) = false ->
            success r = false /\
            error_message r = Some ("Action verification failed: " ++ vmessage (ask_verify o))) /\
         (truthy (verified (ask_verify o)) = true -> success r = true)) /\
      (before_screenshot (dispatch dp dev (Some o) max_click_retries p) = None ->
         success r = true /\ action_verified r = JBool false /\
         verification_message r = Some "Missing screenshots for verification")).
Proof.
  split.
  { intros dp dev vision n p Hin.
    destruct Hin as [E | [E | [E | []]]]; unfold dispatch; rewrite <- E.
    - unfold execute_wait, handler, try_except.
      destruct (lower_v (target_description p)); reflexivity.
    - reflexivity.
    - unfold execute_move, handler, try_except.
      destruct (negb (coords_truthy (coordinates p))); [reflexivity|].
      destruct (unpack2 _) as [xy|]; [|reflexivity]. cbn [bind].
      destruct (gesture dev _); reflexivity. }
  intros dp dev o n hook p needs Hsafe Hneeds Hgate Hsucc.
  unfold execute_action. rewrite Hsafe. cbn [bind ret negb].
  rewrite Hneeds. cbn [bind ret]. rewrite Hgate.
  destruct (dispatch dp dev (Some o) n p) as [s em b a v vm]. simpl in Hsucc |- *. subst s.
  eexists. split; [reflexivity|].
  unfold verify_action_success. simpl.
  destruct b as [b|]; simpl.
  - split; [destruct (truthy (verified (ask_verify o))); reflexivity|].
    split; [|intro H; discriminate H].
    intros _. split; intro Hv; rewrite Hv; simpl; [split|]; reflexivity.
  - split; [reflexivity|]. split; [intro H; contradiction H; reflexivity|].
    intros _. repeat split.
Qed.

(** *** The confirmation step (C8) *)

Definition plan_submit : ActionPlan :=
  mkActionPlan (JStr "wait") (JStr "Submit the form") None JNull (JNum 5) (JStr "") JNull.

(** Claim C8 (code bug): a plan whose description contains "submit" is
    flagged by [_requires_confirmation], yet it is actuated with no external
    approval.  [_get_user_confirmation], documented as "Get user
    confirmation for high-risk actions", is a placeholder ("This would
    integrate with the UI to show confirmation dialog / For now, return
    True") that approves without asking anyone. *)
Lemma C8_unconfirmed_actuation :
  requires_confirmation plan_submit = ret true /\
  get_user_confirmation plan_submit = true /\
  match execute_action no_drag_pattern screen_1080p false None 3
          get_user_confirmation plan_submit with
  | inl r => success r = true /\ error_message r = None
  | inr _ => False
  end.
Proof. vm_compute. repeat split. Qed.


(** *** The task loop (C3, C9, C10) *)

Import Controller.

Definition frames (st : ControllerState) : list string :=
  screenshots_history (context st).

Lemma push_frame_length (h : list string) (f : string) :
  (List.length h <= 10)%nat -> (List.length (push_frame h f) <= 10)%nat.
Proof.
  intros Hh. unfold push_frame. rewrite length_app. simpl.
  destruct (10 <? List.length h + 1)%nat eqn:E.
  - apply Nat.ltb_lt in E. destruct h as [|a h]; simpl in *; [lia|].
    rewrite length_app. simpl. lia.
  - apply Nat.ltb_ge in E. rewrite length_app. simpl. lia.
Qed.

Lemma execute_iteration_frame (st : ControllerState) (i : IterInput) :
  let st' := fst (execute_iteration st i) in
  consecutive_failures st' = consecutive_failures st /\
  completions st' = completions st /\
  error_message (task_status st') = error_message (task_status st) /\
  is_complete (task_status st') = is_complete (task_status st) /\
  ((List.length (frames st) <= 10)%nat -> (List.length (frames st') <= 10)%nat).
Proof.
  destruct i as [|shot [pl|]|shot pl r]; unfold frames; simpl; try (repeat split; auto; fail).
  destruct (success r); simpl; repeat split; auto.
  destruct (after_screenshot r); simpl; auto using push_frame_length.
Qed.

Lemma loop_failures_invariant (max_iterations max_failures : nat) (env : nat -> PassInput) :
  forall fuel k st,
    (consecutive_failures st < max_failures)%nat ->
    let '(st', r) := task_loop max_iterations max_failures env fuel k st in
    (r = Some ExitMaxFailures ->
       consecutive_failures st' = max_failures /\
       is_running (task_status st') = false /\
       error_message (task_status st') = Some (max_failures_message max_failures)) /\
    (r <> Some ExitMaxFailures -> (consecutive_failures st' < max_failures)%nat).
Proof.
  induction fuel as [|fuel IH]; intros k st Hst; simpl.
  - split; [discriminate|auto].
  - destruct (_ && _ && _).
    + destruct (paused (env k)); [apply IH; exact Hst|].
      destruct (emergency_stop (env k)); [split; [discriminate|auto]|].
      pose proof (execute_iteration_frame st (iteration (env k))) as [Hc _].
      destruct (execute_iteration st (iteration (env k))) as [st' ok]. simpl in Hc.
      destruct ok; simpl.
      * apply IH. simpl. lia.
      * destruct (max_failures <=? S (consecutive_failures st'))%nat eqn:E.
        -- apply Nat.leb_le in E. simpl.
           assert (Hm : S (consecutive_failures st') = max_failures) by lia.
           rewrite Hm. split; [|intro H; contradiction H; reflexivity].
           intros _. repeat split.
        -- apply Nat.leb_gt in E. apply IH. simpl. lia.
    + split; [discriminate|auto].
Qed.

Lemma loop_frames_invariant (max_iterations max_failures : nat) (env : nat -> PassInput) :
  forall fuel k st,
    (List.length (frames st) <= 10)%nat ->
    (List.length (frames (fst (task_loop max_iterations max_failures env fuel k st))) <= 10)%nat.
Proof.
  induction fuel as [|fuel IH]; intros k st Hst; simpl; [exact Hst|].
  destruct (_ && _ && _); [|exact Hst].
  destruct (paused (env k)); [apply IH; exact Hst|].
  destruct (emergency_stop (env k)); [exact Hst|].
  pose proof (execute_iteration_frame st (iteration (env k))) as [_ [_ [_ [_ Hf]]]].
  destruct (execute_iteration st (iteration (env k))) as [st' ok]. simpl in Hf.
  specialize (Hf Hst).
  destruct ok; simpl; [apply IH; exact Hf|].
  destruct (max_failures <=? S (consecutive_failures st'))%nat; [exact Hf|].
  apply IH; exact Hf.
Qed.

(** What the completion callbacks have received when the loop is left. *)
Definition exit_notifications (r : option exit_reason) (st : ControllerState) : list (bool * string) :=
  match r with
  | None | Some ExitCondition => []
  | Some ExitEmergency => [(false, "Emergency stop")]
  | Some ExitMaxFailures => [(false, "Max failures reached")]
  end.

Definition exit_error (r : option exit_reason) (st : ControllerState) : option string :=
  match r with
  | None | Some ExitCondition => None
  | Some ExitEmergency => Some "Emergency stop activated"
  | Some ExitMaxFailures => Some (max_failures_message (consecutive_failures st))
  end.

Lemma loop_notifications (max_iterations max_failures : nat) (env : nat -> PassInput) :
  forall fuel k st,
    completions st = [] -> error_message (task_status st) = None ->
    is_complete (task_status st) = false ->
    let '(st', r) := task_loop max_iterations max_failures env fuel k st in
    completions st' = exit_notifications r st' /\
    error_message (task_status st') = exit_error r st' /\
    is_complete (task_status st') = false.
Proof.
  induction fuel as [|fuel IH]; intros k st Hc He Hi; simpl; [auto|].
  destruct (_ && _ && _); [|auto].
  destruct (paused (env k)); [apply IH; assumption|].
  destruct (emergency_stop (env k)).
  { unfold handle_emergency_stop, notify_completion, set_error_stopped. simpl.
    rewrite Hc, Hi. auto. }
  pose proof (execute_iteration_frame st (iteration (env k))) as [_ [Hc' [He' [Hi' _]]]].
  destruct (execute_iteration st (iteration (env k))) as [st' ok]. simpl in Hc', He', Hi'.
  destruct ok; simpl; [apply IH; simpl; congruence|].
  destruct (max_failures <=? S (consecutive_failures st'))%nat.
  - unfold handle_max_failures, notify_completion, set_error_stopped. simpl.
    rewrite Hc', Hi', Hc. auto.
  - apply IH; simpl; congruence.
Qed.

Lemma recent_actions_length (l : list ActionPlan) :
  List.length (recent_actions l) = Nat.min 5 (List.length l).
Proof.
  destruct l as [|a l]; [reflexivity|].
  unfold recent_actions. rewrite length_skipn.
  generalize (List.length (a :: l)). intro n. lia.
Qed.

Lemma recent_actions_suffix (l : list ActionPlan) :
  exists pre, l = (pre ++ recent_actions l)%list.
Proof.
  destruct l as [|a l]; [exists []; reflexivity|].
  exists (firstn (List.length (a :: l) - 5) (a :: l)).
  unfold recent_actions. symmetry. apply firstn_skipn.
Qed.

Lemma recent_actions_app (pre l : list ActionPlan) :
  (5 <= List.length l)%nat -> recent_actions (pre ++ l) = recent_actions l.
Proof.
  intros Hl.
  destruct l as [|a l']; [simpl in Hl; lia|].
  destruct (pre ++ a :: l')%list as [|b m] eqn:E.
  { destruct pre; discriminate. }
  unfold recent_actions. rewrite <- E. rewrite skipn_app, length_app.
  rewrite skipn_all2 by lia. simpl.
  f_equal. lia.
Qed.

(** Claim C3: with [max_failures >= 1], each pass of the task loop that
    runs an iteration leaves the counter untouched inside
    [_execute_iteration], then resets it to 0 after a successful iteration
    and adds exactly 1 after a failed one, ending the loop through
    [_handle_max_failures] as soon as it reaches [max_failures]; over any run
    the loop ends with [ExitMaxFailures] exactly when the counter equals
    [max_failures] (with [is_running = False] and the message
    "Max failures reached: <max_failures>"), and otherwise the counter stays
    below [max_failures]. *)
Theorem C3_consecutive_failures_exact :
  forall task max_iterations max_failures env,
    (1 <= max_failures)%nat ->
    (forall fuel k st st' ok,
       ((current_iteration (task_status st) <? max_iterations)%nat
          && negb (should_stop (env k)) && negb (is_complete (task_status st))) = true ->
       paused (env k) = false -> emergency_stop (env k) = false ->
       execute_iteration st (iteration (env k)) = (st', ok) ->
       consecutive_failures st' = consecutive_failures st /\
       task_loop max_iterations max_failures env (S fuel) k st =
         if ok then task_loop max_iterations max_failures env fuel (S k) (set_failures st' 0)
         else if (max_failures <=? S (consecutive_failures st))%nat
         then (handle_max_failures (set_failures st' (S (consecutive_failures st))),
               Some ExitMaxFailures)
         else task_loop max_iterations max_failures env fuel (S k)
                (set_failures st' (S (consecutive_failures st)))) /\
    (forall fuel st r,
       run task max_iterations max_failures env fuel = (st, r) ->
       (r = Some ExitMaxFailures ->
          consecutive_failures st = max_failures /\
          is_running (task_status st) = false /\
          error_message (task_status st) = Some (max_failures_message max_failures)) /\
       (r <> Some ExitMaxFailures -> (consecutive_failures st < max_failures)%nat)).
Proof.
  intros task maxit maxf env Hmax. split.
  - intros fuel k st st' ok Hg Hp He Hx.
    pose proof (execute_iteration_frame st (iteration (env k))) as [Hc _].
    rewrite Hx in Hc. simpl in Hc. split; [exact Hc|].
    simpl. rewrite Hg, Hp, He, Hx. rewrite Hc. destruct ok; reflexivity.
  - intros fuel st r Hrun. unfold run in Hrun.
    pose proof (loop_failures_invariant maxit maxf env fuel 0 (initial_state task)
                  ltac:(simpl; lia)) as Hinv.
    destruct (task_loop maxit maxf env fuel 0 (initial_state task)) as [st0 r0].
    destruct Hinv as [Hm Hn].
    destruct r0 as [r0|]; injection Hrun as <- <-.
    + unfold handle_task_completion.
      destruct (error_message (task_status st0)) eqn:Ee; simpl; rewrite ?Ee;
        (split; [intro Hr; destruct (Hm Hr) as [H1 [_ H3]]; rewrite H3 in Ee;
                 try discriminate; repeat split; congruence
                |exact Hn]).
    + split; [discriminate|exact Hn].
Qed.

(** Claim C9: over any run, whatever its length, the frame history holds at
    most 10 frames; a frame pushed onto a full history evicts the oldest
    one; the prompt lists [previous_actions[-5:]], a suffix of at most 5
    actions, so actions older than the last five never reach the
    prompt's history listing. *)
Theorem C9_history_caps :
  (forall task max_iterations max_failures env fuel,
     (List.length (frames (fst (run task max_iterations max_failures env fuel))) <= 10)%nat) /\
  (forall h f, List.length h = 10%nat -> push_frame h f = (tl h ++ [f])%list) /\
  (forall h f, (List.length h < 10)%nat -> push_frame h f = (h ++ [f])%list) /\
  (forall l : list ActionPlan,
     List.length (recent_actions l) = Nat.min 5 (List.length l) /\
     exists pre, l = (pre ++ recent_actions l)%list) /\
  (forall str_v ctx pre shot screen,
     (5 <= List.length (previous_actions ctx))%nat ->
     (let* m := build_context_messages str_v
                  (mkVisionContext (task_description ctx) (pre ++ previous_actions ctx)%list
                     (screenshots_history ctx) (current_screenshot ctx) (iteration_count ctx))
                  shot screen in ret (msg_recent_actions m))
     = (let* m := build_context_messages str_v ctx shot screen in ret (msg_recent_actions m))).
Proof.
  split; [|split; [|split; [|split]]].
  - intros task maxit maxf env fuel. unfold run.
    pose proof (loop_frames_invariant maxit maxf env fuel 0 (initial_state task)
                  ltac:(simpl; lia)) as Hf.
    destruct (task_loop maxit maxf env fuel 0 (initial_state task)) as [st r].
    destruct r; simpl in *; [|exact Hf].
    unfold handle_task_completion.
    destruct (error_message (task_status st)); exact Hf.
  - intros h f Hh. unfold push_frame. rewrite length_app, Hh. simpl.
    destruct h as [|a h]; [discriminate|reflexivity].
  - intros h f Hh. unfold push_frame. rewrite length_app. simpl.
    replace (10 <? List.length h + 1)%nat with false; [reflexivity|].
    symmetry. apply Nat.ltb_ge. lia.
  - intros l. split; [apply recent_actions_length|apply recent_actions_suffix].
  - intros str_v ctx pre shot screen Hl.
    unfold build_context_messages. simpl. rewrite (recent_actions_app pre _ Hl).
    destruct (action_lines str_v 0 (recent_actions (previous_actions ctx))); reflexivity.
Qed.

(** Claim C10: every exit of the task loop reaches
    [_handle_task_completion], so after any termination [is_complete] is
    true and [is_running] false; the completion callbacks receive, in
    order, ("Emergency stop") and then ("Emergency stop activated") after an
    emergency stop, ("Max failures reached") and then
    ("Max failures reached: <n>") after too many failures, each with
    success [False], and a single (True, "Task completed") after a normal
    exit of the [while] loop. *)
Theorem C10_every_exit_completes :
  forall task max_iterations max_failures env fuel st r,
    run task max_iterations max_failures env fuel = (st, Some r) ->
    is_complete (task_status st) = true /\
    is_running (task_status st) = false /\
    completions st =
      match r with
      | ExitCondition => [(true, "Task completed")]
      | ExitEmergency => [(false, "Emergency stop"); (false, "Emergency stop activated")]
      | ExitMaxFailures =>
          [(false, "Max failures reached");
           (false, max_failures_message (consecutive_failures st))]
      end.
Proof.
  intros task maxit maxf env fuel st r Hrun. unfold run in Hrun.
  pose proof (loop_notifications maxit maxf env fuel 0 (initial_state task)
                eq_refl eq_refl eq_refl) as Hn.
  destruct (task_loop maxit maxf env fuel 0 (initial_state task)) as [st0 r0].
  destruct r0 as [r0|]; [|discriminate].
  injection Hrun as <- <-.
  destruct Hn as [Hc [He _]].
  unfold handle_task_completion. rewrite He.
  destruct r0; simpl in *; rewrite Hc; repeat split.
Qed.

(** ** Instances of the claims on concrete inputs *)

Definition plan_click_at (x y : Q) : ActionPlan :=
  mkActionPlan (JStr "click") (JStr "Open the settings menu") (Some [JNum x; JNum y]) JNull
    (JNum 9) (JStr "") JNull.

(** An oracle that never confirms and always proposes another point. *)
Definition always_alternative (_ : nat) : ConfirmResp :=
  mkConfirmResp false (Some [JNum 100; JNum 100]).

Definition plan_delete_click (c : Q) : ActionPlan :=
  mkActionPlan (JStr "click") (JStr "Delete old file") (Some [JNum 40; JNum 40]) JNull
    (JNum c) (JStr "") JNull.

Definition pass_with (estop : bool) (i : IterInput) (_ : nat) : PassInput :=
  mkPassInput false estop false i.

Definition empty_context : VisionContext := mkVisionContext "Open the settings" [] [] "" 0.

Definition unreachable_oracle : OracleIO :=
  mkOracleIO (fun _ => raise TransportError) (fun _ => raise JSONDecodeError).

Definition ten_frames : list string :=
  ["f0"; "f1"; "f2"; "f3"; "f4"; "f5"; "f6"; "f7"; "f8"; "f9"].

Lemma C1_witness :
  fst (execute_click screen_1080p (Some always_alternative) 3 (plan_click_at 50 60))
    = max_attempts_failure /\
  snd (execute_click screen_1080p (Some always_alternative) 3 (plan_click_at 50 60)) = 3%nat.
Proof.
  pose proof (C1_negotiator_bounded screen_1080p always_alternative 3 (plan_click_at 50 60) 50 60
                ltac:(lia) eq_refl eq_refl
                ltac:(split; unfold Qle; simpl; lia)
                ltac:(split; unfold Qle; simpl; lia)) as H.
  destruct (execute_click screen_1080p (Some always_alternative) 3 (plan_click_at 50 60))
    as [r calls].
  destruct H as [_ [_ [H _]]]. apply H.
  intros k _. split; [reflexivity|]. exists 100, 100. reflexivity.
Defined.

Lemma C2_witness :
  validate_action_plan (plan_delete_click 7) = ret false /\
  validate_action_plan (plan_delete_click 8) = ret true /\
  validate_action_safety screen_1080p (plan_delete_click 7) = ret false /\
  validate_action_safety screen_1080p (plan_delete_click 8) = ret true.
Proof.
  destruct C2_destructive_confidence_threshold as [Hv Hs].
  split; [|split; [|split]].
  - apply (proj1 (Hv (plan_delete_click 7) "Delete old file" 7 eq_refl eq_refl eq_refl
                     ltac:(split; unfold Qle; simpl; lia))).
    unfold Qlt; simpl; lia.
  - apply (proj2 (Hv (plan_delete_click 8) "Delete old file" 8 eq_refl eq_refl eq_refl
                     ltac:(split; unfold Qle; simpl; lia))); reflexivity.
  - apply (proj1 (Hs screen_1080p (plan_delete_click 7) "Delete old file" 7 eq_refl eq_refl
                     eq_refl ltac:(split; unfold Qle; simpl; lia) eq_refl)).
    unfold Qlt; simpl; lia.
  - apply (proj2 (Hs screen_1080p (plan_delete_click 8) "Delete old file" 8 eq_refl eq_refl
                     eq_refl ltac:(split; unfold Qle; simpl; lia) eq_refl)).
    right; right. exists 40, 40. split; [reflexivity|].
    split; split; unfold Qle; simpl; lia.
Defined.

Lemma C3_witness :
  snd (run "Open the settings" 50 3 (pass_with false NoScreenshot) 10) = Some ExitMaxFailures /\
  consecutive_failures (fst (run "Open the settings" 50 3 (pass_with false NoScreenshot) 10)) = 3%nat.
Proof.
  destruct (C3_consecutive_failures_exact "Open the settings" 50 3 (pass_with false NoScreenshot)
              ltac:(lia)) as [_ H].
  assert (Hr : snd (run "Open the settings" 50 3 (pass_with false NoScreenshot) 10)
               = Some ExitMaxFailures) by (vm_compute; reflexivity).
  destruct (run "Open the settings" 50 3 (pass_with false NoScreenshot) 10) as [st r] eqn:E.
  simpl in Hr |- *. split; [exact Hr|].
  exact (proj1 (proj1 (H 10%nat st r E) Hr)).
Defined.

Lemma C4_witness :
  analyze_screenshot (fun _ => "") unreachable_oracle (mkScreenshot (1920, 1080)%Z "png")
    empty_context (1920, 1080)%Z = create_fallback_action.
Proof.
  destruct (C4_analyze_never_raises (fun _ => "") unreachable_oracle
              (mkScreenshot (1920, 1080)%Z "png") empty_context (1920, 1080)%Z)
    as [_ [H _]].
  eapply H; [vm_compute; reflexivity | reflexivity].
Defined.

Lemma C5_witness :
  map_coordinates [JNum (1 # 2); JNum (1 # 4)] (100, 200)%Z (200, 400)%Z
    = [JNum (inject_Z 100); JNum (inject_Z 100)].
Proof.
  assert (H : (0 <= 1 # 2 <= 1)%Q /\ (0 <= 1 # 4 <= 1)%Q)
    by (split; split; unfold Qle; simpl; lia).
  rewrite (proj1 (proj1 C5_ratio_converted_once (1 # 2) (1 # 4) 100%Z 200%Z 200%Z 400%Z) H).
  vm_compute. reflexivity.
Defined.

Lemma C6_witness :
  map_coordinates [JNum (inject_Z 500); JNum (inject_Z 300)] (1920, 1080)%Z (1920, 1080)%Z
    = [JNum (inject_Z 500); JNum (inject_Z 300)].
Proof.
  apply (proj1 C6_mapper_identity_and_scaling 1920%Z 1080%Z 500%Z 300%Z);
    [discriminate | discriminate | vm_compute; discriminate | vm_compute; discriminate | lia].
Defined.

Lemma C7_witness :
  before_screenshot (dispatch no_drag_pattern screen_1080p (Some sceptical_oracle) 3 plan_wait)
    = None /\
  exists r,
    execute_action no_drag_pattern screen_1080p false (Some sceptical_oracle) 3
      get_user_confirmation plan_type = ret r /\
    success r = false /\
    result_error r = Some "Action verification failed: No visible change".
Proof.
  split; [apply (proj1 C7_verification_downgrade); left; reflexivity|].
  destruct (proj2 C7_verification_downgrade no_drag_pattern screen_1080p sceptical_oracle 3%nat
              get_user_confirmation plan_type false
              ltac:(vm_compute; reflexivity) ltac:(vm_compute; reflexivity) eq_refl
              ltac:(vm_compute; reflexivity)) as [r [Hr [_ [Hb _]]]].
  exists r. split; [exact Hr|].
  exact (proj1 (Hb ltac:(vm_compute; discriminate)) eq_refl).
Defined.


Lemma C9_witness :
  push_frame ten_frames "f10" = (tl ten_frames ++ ["f10"])%list.
Proof.
  apply (proj1 (proj2 C9_history_caps)). reflexivity.
Defined.

Lemma C10_witness :
  snd (run "Open the settings" 50 3 (pass_with true NoScreenshot) 5) = Some ExitEmergency /\
  completions (fst (run "Open the settings" 50 3 (pass_with true NoScreenshot) 5))
    = [(false, "Emergency stop"); (false, "Emergency stop activated")].
Proof.
  assert (Hr : snd (run "Open the settings" 50 3 (pass_with true NoScreenshot) 5)
               = Some ExitEmergency) by (vm_compute; reflexivity).
  destruct (run "Open the settings" 50 3 (pass_with true NoScreenshot) 5) as [st r] eqn:E.
  simpl in Hr |- *. subst r. split; [reflexivity|].
  exact (proj2 (proj2 (C10_every_exit_completes _ _ _ _ _ st ExitEmergency E))).
Defined.

(* ------------------------------------------------------------------ *)
(** ** Further properties of the code *)

(** A JSON field that is an array, or [null] (read as the empty array). *)
Definition array_or_null (v : json) : option (list json) :=
  match v with JNull => Some [] | JArr l => Some l | _ => None end.

Definition on_screen (dev : Device) (x y : Q) : Prop :=
  (0 <= x <= inject_Z (fst (screen_size dev)))%Q /\
  (0 <= y <= inject_Z (snd (screen_size dev)))%Q.

(** Reduces [_execute_click] up to its confirmation loop for an on-screen
    numeric point on a working device. *)
Ltac click_prefix Hc Hon Hdev :=
  unfold execute_click; rewrite Hc; cbn [coords_truthy negb unpack2 bind ret];
  let sw := fresh "sw" in let sh := fresh "sh" in let Hsz := fresh "Hsz" in
  destruct Hon as [[?Hx0 ?Hx1] [?Hy0 ?Hy1]];
  destruct (screen_size _) as [sw sh] eqn:Hsz; simpl in *;
  match goal with
  | H0 : (0 <= ?x)%Q, H1 : (?x <= _)%Q, H2 : (0 <= ?y)%Q, H3 : (?y <= _)%Q |- _ =>
      apply Qle_bool_iff in H0, H1, H2, H3;
      py_num; rewrite H0, H1; cbn [andb]; py_num; rewrite H2, H3; cbn [negb]
  end;
  rewrite (gesture_num _ Hdev); cbn [bind ret andb negb].

Section NegotiatorMore.

Variable dev : Device.
Variable ask : nat -> ConfirmResp.
Variable max_click_retries : nat.
Hypothesis Hdev : gestures_ok dev = true.

Lemma click_loop_confirmed : forall f a j x y last (pa pb : nat -> Q),
  (a + f = max_click_retries)%nat -> (a <= j < max_click_retries)%nat ->
  (forall k, (a <= k < j)%nat ->
     confirm (ask k) = false /\ suggested (ask k) = Some [JNum (pa k); JNum (pb k)]) ->
  confirm (ask j) = true ->
  click_loop dev ask f max_click_retries a x y last =
    (if (j =? a)%nat then LBreak x y else LBreak (JNum (pa (pred j))) (JNum (pb (pred j))),
     S (j - a)).
Proof.
  induction f as [|f IH]; intros a j x y last pa pb Hf Hj Halt Hc; [lia|]. simpl.
  assert (Ha : (a <? max_click_retries)%nat = true) by (apply Nat.ltb_lt; lia).
  rewrite Ha.
  destruct (Nat.eq_dec j a) as [->|Hne].
  - rewrite Hc, Nat.eqb_refl, Nat.sub_diag. reflexivity.
  - destruct (Halt a ltac:(lia)) as [Ec Es]. rewrite Ec, Es, (gesture_num dev Hdev).
    rewrite (IH (S a) j (JNum (pa a)) (JNum (pb a)) (Some (ask a)) pa pb); try lia.
    + cbn [bind ret]. replace (j =? a)%nat with false by (symmetry; apply Nat.eqb_neq; lia).
      destruct (Nat.eqb_spec j (S a)) as [->|Hs].
      * cbn [pred]. f_equal. lia.
      * f_equal. lia.
    + intros k Hk. apply Halt. lia.
    + exact Hc.
Qed.

End NegotiatorMore.

(** [_parse_action_response] on a reply holding a JSON object whose two
    coordinate fields are arrays or null: it never raises; the coordinates
    are [coordinates_pct] when it has exactly two elements, else
    [coordinates] when it has exactly two, else none; each missing field
    takes its default. *)
Theorem parse_action_response_object :
  forall (loads : string -> Exc json) t kv l1 l2,
    loads (slice t (find "{"%char t) (rfind "}"%char t + 1)) = ret (JObj kv) ->
    array_or_null (get kv "coordinates_pct" JNull) = Some l1 ->
    array_or_null (get kv "coordinates" JNull) = Some l2 ->
    parse_action_response loads (Some t) =
    ret {| action_type := get kv "action_type" (JStr "wait");
           target_description := get kv "target_description" (JStr "Unknown target");
           coordinates :=
             if (List.length l1 =? 2)%nat then Some l1
             else if (List.length l2 =? 2)%nat then Some l2 else None;
           text := get kv "text" JNull;
           confidence := get kv "confidence" (JNum 5);
           reasoning := get kv "reasoning" (JStr "");
           verification_criteria := get kv "verification_criteria" JNull |}.
Proof.
  intros loads t kv l1 l2 Hl H1 H2.
  unfold parse_action_response. rewrite Hl. cbn [bind ret].
  destruct (get kv "coordinates_pct" JNull) as [| | | |la|] eqn:E1; try discriminate H1;
    injection H1 as <-;
  destruct (get kv "coordinates" JNull) as [| | | |lb|] eqn:E2; try discriminate H2;
    injection H2 as <-;
  try destruct la as [|a1 [|b1 [|c1 la]]]; try destruct lb as [|a2 [|b2 [|c2 lb]]];
  reflexivity.
Qed.

(** [_parse_action_response] catches only JSON decoding and key errors:
    a reply object whose [coordinates_pct] is a non-zero number makes it
    raise (TypeError from [len]), and [analyze_screenshot] then returns the
    fallback plan. *)
Theorem analyze_falls_back_on_parser_errors :
  forall str_v io shot ctx screen m t,
    build_context_messages str_v ctx (b64 shot) screen = ret m ->
    complete io m = ret (Some t) ->
    (forall kv q,
       loads io (slice t (find "{"%char t) (rfind "}"%char t + 1)) = ret (JObj kv) ->
       get kv "coordinates_pct" JNull = JNum q -> ~ (q == 0)%Q ->
       parse_action_response (loads io) (Some t) = raise TypeError /\
       analyze_screenshot str_v io shot ctx screen = create_fallback_action).
Proof.
  intros str_v io shot ctx screen m t Hb Hc.
  assert (Hfall : forall e, parse_action_response (loads io) (Some t) = raise e ->
                  analyze_screenshot str_v io shot ctx screen = create_fallback_action).
  { intros e He. unfold analyze_screenshot, analyze_body. rewrite Hb. cbn [bind ret].
    rewrite Hc. cbn [bind ret]. rewrite He. reflexivity. }
  intros kv q Hl Hp Hq.
  assert (Hpe : parse_action_response (loads io) (Some t) = raise TypeError).
  { unfold parse_action_response. rewrite Hl. cbn [bind ret]. rewrite Hp.
    cbn [truthy]. destruct (Qeq_bool q 0) eqn:E.
    - apply Qeq_bool_iff in E. contradiction.
    - reflexivity. }
  split; [exact Hpe | exact (Hfall _ Hpe)].
Qed.

(** [confirm_click]: a reply that cannot be read (the call raises, no
    content, undecodable or non-object JSON) yields [confirm=False] with no
    suggestion.  For an object, [confirm] is the Python truthiness of its
    [confirm] field (absent: False; the string "false": True) and a
    non-empty [suggested_coordinates] array is passed on; a non-zero number
    there makes [tuple()] raise, so the answer is [confirm=False] even when
    the reply confirmed. *)
Theorem confirm_click_reply :
  forall (loads : string -> Exc json),
    (forall e, confirm_click (raise e) loads = mkConfirmResp false None) /\
    confirm_click (ret None) loads = mkConfirmResp false None /\
    (forall t e,
       loads (slice t (find "{"%char t) (rfind "}"%char t + 1)) = raise e ->
       confirm_click (ret (Some t)) loads = mkConfirmResp false None) /\
    (forall t v,
       loads (slice t (find "{"%char t) (rfind "}"%char t + 1)) = ret v ->
       (forall kv, v <> JObj kv) ->
       confirm_click (ret (Some t)) loads = mkConfirmResp false None) /\
    (forall t kv l,
       loads (slice t (find "{"%char t) (rfind "}"%char t + 1)) = ret (JObj kv) ->
       array_or_null (get kv "suggested_coordinates" JNull) = Some l ->
       confirm_click (ret (Some t)) loads =
       mkConfirmResp (truthy (get kv "confirm" (JBool false)))
         (match l with [] => None | _ => Some l end)) /\
    (forall t kv q,
       loads (slice t (find "{"%char t) (rfind "}"%char t + 1)) = ret (JObj kv) ->
       get kv "suggested_coordinates" JNull = JNum q -> ~ (q == 0)%Q ->
       confirm_click (ret (Some t)) loads = mkConfirmResp false None).
Proof.
  intros loads. split; [reflexivity|]. split; [reflexivity|].
  split; [intros t e Hl; unfold confirm_click; cbn [bind ret]; rewrite Hl; reflexivity|].
  split.
  { intros t v Hl Hv. unfold confirm_click; cbn [bind ret]. rewrite Hl. cbn [bind ret].
    destruct v; try reflexivity. exfalso. exact (Hv kv eq_refl). }
  split.
  - intros t kv l Hl Hs. unfold confirm_click; cbn [bind ret]. rewrite Hl. cbn [bind ret].
    destruct (get kv "suggested_coordinates" JNull) as [| | | |la|] eqn:E; try discriminate Hs;
      injection Hs as <-; try destruct la; reflexivity.
  - intros t kv q Hl Hs Hq. unfold confirm_click; cbn [bind ret]. rewrite Hl. cbn [bind ret].
    rewrite Hs. cbn [truthy]. destruct (Qeq_bool q 0) eqn:E.
    + apply Qeq_bool_iff in E. contradiction.
    + reflexivity.
Qed.

(** [_execute_click] with [confirm_click] as its oracle: when the first
    confirmation call fails (transport error, unreadable reply), the click
    is abandoned with "Click not confirmed by AI" after that single call,
    without clicking. *)
Theorem click_abandoned_when_confirmation_fails :
  forall dev max_click_retries p x y (replies : nat -> Exc (option string)) loads e,
    (1 <= max_click_retries)%nat ->
    gestures_ok dev = true ->
    coordinates p = Some [JNum x; JNum y] ->
    on_screen dev x y ->
    replies 0%nat = raise e ->
    execute_click dev (Some (fun k => confirm_click (replies k) loads)) max_click_retries p
      = (failed "Click not confirmed by AI", 1%nat).
Proof.
  intros dev n p x y replies loads e Hn Hdev Hc Hon He.
  click_prefix Hc Hon Hdev.
  rewrite (click_loop_no_alt dev (fun k => confirm_click (replies k) loads) n Hdev n 0 0
             (JNum x) (JNum y) None); try lia.
  - reflexivity.
  - rewrite He. reflexivity.
  - unfold no_alternative. rewrite He. exact I.
Qed.

(** [_execute_click]: when the confirmation answers decline with an
    alternative point before the [j]-th call confirms ([j < max_click_retries]),
    the click succeeds after [j+1] calls, at the last suggested point (the
    original point when [j = 0]). *)
Theorem click_lands_on_last_suggestion :
  forall dev ask max_click_retries p x y j (pa pb : nat -> Q),
    gestures_ok dev = true ->
    coordinates p = Some [JNum x; JNum y] ->
    on_screen dev x y ->
    (j < max_click_retries)%nat ->
    (forall k, (k < j)%nat ->
       confirm (ask k) = false /\ suggested (ask k) = Some [JNum (pa k); JNum (pb k)]) ->
    confirm (ask j) = true ->
    fst (click_loop dev ask max_click_retries max_click_retries 0 (JNum x) (JNum y) None) =
      (if (j =? 0)%nat then LBreak (JNum x) (JNum y)
       else LBreak (JNum (pa (pred j))) (JNum (pb (pred j)))) /\
    execute_click dev (Some ask) max_click_retries p = (succeeded (Some (frame dev)), S j).
Proof.
  intros dev ask n p x y j pa pb Hdev Hc Hon Hj Halt Hok.
  assert (Hl := click_loop_confirmed dev ask n Hdev n 0 j (JNum x) (JNum y) None pa pb
                  ltac:(lia) ltac:(lia) ltac:(intros k Hk; apply Halt; lia) Hok).
  split; [rewrite Hl; reflexivity|].
  click_prefix Hc Hon Hdev.
  rewrite Hl. rewrite Nat.sub_0_r.
  destruct (j =? 0)%nat; cbn; rewrite Hdev; reflexivity.
Qed.

Lemma allowed_existsb (s : string) :
  In s allowed_actions -> existsb (String.eqb s) allowed_actions = true.
Proof. intro H. apply existsb_exists. exists s. split; [exact H | apply String.eqb_refl]. Qed.

(** The gate's keyword list is the plan validator's plus "remove". *)
Lemma destructive_keywords_split (s : string) :
  any_in destructive_keywords s = any_in destructive_actions s || contains "remove" s.
Proof.
  unfold any_in; simpl.
  destruct (contains "delete" s), (contains "remove" s), (contains "uninstall" s),
    (contains "format" s), (contains "shutdown" s); reflexivity.
Qed.

(** [_validate_action_safety] past its type check and its description,
    when a destructive description comes with confidence at least 8. *)
Lemma safety_gate_coords_part dev p s d :
  action_type p = JStr s -> In s allowed_actions -> target_description p = JStr d ->
  (any_in destructive_keywords (lower d) = true ->
   exists c, confidence p = JNum c /\ (8 <= c)%Q) ->
  validate_action_safety dev p =
    match coordinates p with
    | Some c =>
        if coords_truthy (Some c) then
          let* xy := unpack2 c in
          let '(x, y) := xy in
          let '(sw, sh) := screen_size dev in
          let* inx := le_chain (JNum 0) x (JNum (inject_Z sw)) in
          let* inb := if inx then le_chain (JNum 0) y (JNum (inject_Z sh)) else ret false in
          ret inb
        else ret true
    | None => ret true
    end.
Proof.
  intros Hs Hin Hd Hconf. unfold validate_action_safety. rewrite Hs. cbn [bind ret].
  rewrite (allowed_existsb s Hin). cbn [negb]. rewrite Hd. cbn [lower_v bind ret].
  destruct (any_in destructive_keywords (lower d)) eqn:Hk; [|reflexivity].
  destruct (Hconf eq_refl) as [c [Hc H8]]. rewrite Hc. py_num.
  apply Qle_bool_iff in H8. rewrite H8. reflexivity.
Qed.

(** [_validate_action_safety], its type check: a non-string action type is
    refused ([None], a bool or a number) or makes the dict lookup raise
    (a list or an object is unhashable), and a string outside
    [allowed_actions] is refused, whatever the other fields hold. *)
Theorem safety_gate_type_check :
  forall dev p,
    (forall s, action_type p = JStr s -> ~ In s allowed_actions ->
       validate_action_safety dev p = ret false) /\
    ((action_type p = JNull \/ (exists b, action_type p = JBool b) \/
      exists q, action_type p = JNum q) -> validate_action_safety dev p = ret false) /\
    ((exists l, action_type p = JArr l) \/ (exists kv, action_type p = JObj kv) ->
     validate_action_safety dev p = raise TypeError).
Proof.
  intros dev p. unfold validate_action_safety. split; [|split].
  - intros s Hs Hn. rewrite Hs. cbn [bind ret].
    destruct (existsb (String.eqb s) allowed_actions) eqn:E; [|reflexivity].
    apply existsb_exists in E. destruct E as [s' [Hin Heq]].
    apply String.eqb_eq in Heq. subst s'. contradiction.
  - intros [H | [[b H] | [q H]]]; rewrite H; reflexivity.
  - intros [[l H] | [kv H]]; rewrite H; reflexivity.
Qed.

(** [_validate_action_safety], its bounds check: for an allowed action
    whose description is not destructive (or whose confidence is at least
    8), no or empty coordinates pass; a numeric pair passes exactly when it
    lies in the closed box [0, width] x [0, height]; and a non-empty list
    that is not a pair makes the unpacking raise ValueError. *)
Theorem safety_gate_bounds :
  forall dev p s d,
    action_type p = JStr s -> In s allowed_actions -> target_description p = JStr d ->
    (any_in destructive_keywords (lower d) = true ->
     exists c, confidence p = JNum c /\ (8 <= c)%Q) ->
    ((coordinates p = None \/ coordinates p = Some []) ->
     validate_action_safety dev p = ret true) /\
    (forall x y, coordinates p = Some [JNum x; JNum y] ->
     validate_action_safety dev p =
       ret (Qle_bool 0 x && Qle_bool x (inject_Z (fst (screen_size dev))) &&
            (Qle_bool 0 y && Qle_bool y (inject_Z (snd (screen_size dev)))))) /\
    (forall l, coordinates p = Some l -> l <> [] -> List.length l <> 2%nat ->
     validate_action_safety dev p = raise ValueError).
Proof.
  intros dev p s d Hs Hin Hd Hconf.
  rewrite (safety_gate_coords_part dev p s d Hs Hin Hd Hconf).
  split; [|split].
  - intros [H | H]; rewrite H; reflexivity.
  - intros x y H. rewrite H. cbn [coords_truthy unpack2 bind ret].
    destruct (screen_size dev) as [sw sh]. simpl. py_num.
    destruct (Qle_bool 0 x && Qle_bool x (inject_Z sw)); py_num; reflexivity.
  - intros l H Hne Hl. rewrite H.
    destruct l as [|a [|b [|c l]]]; [contradiction | reflexivity | simpl in Hl; lia | reflexivity].
Qed.

(** [_validate_action_plan] followed by [_validate_action_safety]: a plan
    the oracle client accepts, with no coordinates or on-screen numeric
    ones, is refused by the gate exactly when its description contains
    "remove" (a keyword only the gate has) and its confidence is below 8. *)
Theorem validated_plan_passes_gate_unless_remove :
  forall dev p d c,
    validate_action_plan p = ret true ->
    target_description p = JStr d -> confidence p = JNum c ->
    (coordinates p = None \/
     exists x y, coordinates p = Some [JNum x; JNum y] /\ on_screen dev x y) ->
    validate_action_safety dev p =
      ret (negb (contains "remove" (lower d)) || Qle_bool 8 c).
Proof.
  intros dev p d c Hv Hd Hc Hco.
  unfold validate_action_plan in Hv. rewrite Hd, Hc in Hv. cbn [lower_v bind ret] in Hv.
  rewrite ?le_chain_JNum, ?lt_JNum in Hv. cbn [bind ret] in Hv.
  (* the type is a valid one, and a destructive description is confident *)
  assert (Hty : in_strs (action_type p) valid_types = true /\
                (any_in destructive_actions (lower d) = true -> Qle_bool 8 c = true)).
  { destruct (any_in destructive_actions (lower d)), (Qle_bool 8 c),
      (Qle_bool 1 c && Qle_bool c 10), (in_strs (action_type p) valid_types);
      cbn [negb andb] in Hv; try discriminate Hv; split; auto. }
  destruct Hty as [Hty H8].
  destruct (action_type p) as [| | |s| |] eqn:Ht; try discriminate Hty.
  assert (Hin : In s allowed_actions).
  { cbn [in_strs] in Hty. apply existsb_exists in Hty. destruct Hty as [s' [Hs' E]].
    apply String.eqb_eq in E. subst s'. exact Hs'. }
  unfold validate_action_safety. rewrite Ht. cbn [bind ret].
  rewrite (allowed_existsb s Hin). cbn [negb]. rewrite Hd. cbn [lower_v bind ret].
  rewrite destructive_keywords_split, Hc. py_num.
  destruct Hco as [Hn | [x [y [Hxy Hon]]]].
  - rewrite Hn.
    destruct (any_in destructive_actions (lower d)) eqn:Ha; [rewrite (H8 eq_refl)|];
      destruct (contains "remove" (lower d)), (Qle_bool 8 c); reflexivity.
  - rewrite Hxy. cbn [coords_truthy unpack2 bind ret].
    destruct Hon as [[Hx0 Hx1] [Hy0 Hy1]].
    destruct (screen_size dev) as [sw sh]. cbn [fst snd] in Hx1, Hy1.
    apply Qle_bool_iff in Hx0, Hx1, Hy0, Hy1. py_num. rewrite Hx0, Hx1. cbn [andb].
    py_num. rewrite Hy0, Hy1. cbn [andb].
    destruct (any_in destructive_actions (lower d)) eqn:Ha; [rewrite (H8 eq_refl)|];
      destruct (contains "remove" (lower d)), (Qle_bool 8 c); reflexivity.
Qed.

(** A result either succeeded or carries no before frame. *)
Definition frame_ok (r : ExecutionResult) : Prop :=
  success r = true \/ before_screenshot r = None.

(** Case analysis on every [match] of the goal, innermost scrutinee first. *)
Ltac destruct_innermost :=
  match goal with
  | |- context [match ?x with _ => _ end] =>
      lazymatch x with
      | context [match _ with _ => _ end] => fail
      | _ => destruct x
      end
  end.

Ltac frame_ok_tac :=
  cbv [bind ret raise try_except handler];
  repeat (destruct_innermost; cbn [fst snd]);
  try (left; reflexivity); try (right; reflexivity).

Lemma click_frame_ok dev v max_click_retries p :
  frame_ok (fst (execute_click dev v max_click_retries p)).
Proof. unfold execute_click. frame_ok_tac. Qed.

(** Every handler that fails attaches no before frame. *)
Lemma dispatch_frame_ok dp dev vision max_click_retries p :
  frame_ok (dispatch dp dev vision max_click_retries p).
Proof.
  unfold dispatch.
  assert (Hc := click_frame_ok dev (option_map ask_confirm vision) max_click_retries p).
  destruct (fst (execute_click dev (option_map ask_confirm vision) max_click_retries p)).
  unfold execute_double_click, execute_right_click, execute_type, execute_scroll,
    execute_wait, execute_verify, execute_navigate, execute_hotkey, execute_move, execute_drag.
  destruct (action_type p) as [| | |s| |]; try (right; reflexivity).
  frame_ok_tac; exact Hc.
Qed.

(** [execute_action]: verification can only turn a success into a failure.
    A successful result means the emergency stop was off, the safety gate
    passed, confirmation was not needed or was granted, and the handler
    itself succeeded; its after frame is the one taken after the action. *)
Theorem execute_action_success_inv :
  forall dp dev estop vision max_click_retries confirm_hook p r,
    execute_action dp dev estop vision max_click_retries confirm_hook p = ret r ->
    success r = true ->
    estop = false /\ validate_action_safety dev p = ret true /\
    (requires_confirmation p = ret false \/
     (requires_confirmation p = ret true /\ confirm_hook p = true)) /\
    success (dispatch dp dev vision max_click_retries p) = true /\
    after_screenshot r = Some (frame dev).
Proof.
  intros dp dev estop vision n hook p r H Hs. unfold execute_action in H.
  destruct estop; [injection H as <-; discriminate Hs|].
  destruct (validate_action_safety dev p) as [[|]|e] eqn:Hv; cbn [bind negb] in H;
    [| injection H as <-; discriminate Hs | discriminate H].
  destruct (requires_confirmation p) as [[|]|e] eqn:Hr; cbn [bind andb] in H;
    [| | discriminate H].
  all: try (destruct (hook p) eqn:Hh; cbn [negb] in H; [|injection H as <-; discriminate Hs]).
  all: set (d := dispatch dp dev vision n p) in H |- *.
  all: destruct vision as [o|]; [destruct (success d) eqn:Hd; cbn [success] in H|];
    injection H as <-; cbn [success] in Hs |- *.
  all: try (unfold verify_action_success in Hs |- *; cbn [before_screenshot after_screenshot success] in Hs |- *;
            destruct (before_screenshot d); [destruct (truthy (verified (ask_verify o)))|];
            cbn [success after_screenshot] in Hs |- *).
  all: try discriminate Hs; repeat split; auto.
Qed.

(** [execute_action] followed by [_handle_failed_action]: a failed result
    carries a before frame only when the handler succeeded and the
    Verifier rejected the action; every other failure (emergency stop,
    safety gate, declined confirmation, failing handler, or a success the
    Verifier could not check) has no before frame, so the controller never
    asks the Diagnoser about it and sleeps no recovery delay. *)
Theorem diagnosis_only_after_rejected_verification :
  forall dp dev estop vision max_click_retries confirm_hook p r reply loads,
    execute_action dp dev estop vision max_click_retries confirm_hook p = ret r ->
    success r = false ->
    (before_screenshot r = None /\ failure_recovery_delay r reply loads = 0%Q) \/
    (exists o, vision = Some o /\
       success (dispatch dp dev vision max_click_retries p) = true /\
       truthy (verified (ask_verify o)) = false /\
       result_error r = Some ("Action verification failed: " ++ vmessage (ask_verify o)) /\
       before_screenshot r = before_screenshot (dispatch dp dev vision max_click_retries p) /\
       before_screenshot r <> None /\
       failure_recovery_delay r reply loads = apply_failure_recovery (diagnose_failure reply loads)).
Proof.
  intros dp dev estop vision n hook p r reply loads H Hs.
  assert (Hnone : before_screenshot r = None ->
                  before_screenshot r = None /\ failure_recovery_delay r reply loads = 0%Q).
  { intro Hb. split; [exact Hb|]. unfold failure_recovery_delay. rewrite Hb. reflexivity. }
  unfold execute_action in H.
  destruct estop; [injection H as <-; left; apply Hnone; reflexivity|].
  destruct (validate_action_safety dev p) as [[|]|e]; cbn [bind negb] in H;
    [| injection H as <-; left; apply Hnone; reflexivity | discriminate H].
  destruct (requires_confirmation p) as [[|]|e]; cbn [bind andb] in H; [| | discriminate H].
  all: try (destruct (hook p); cbn [negb] in H;
            [|injection H as <-; left; apply Hnone; reflexivity]).
  all: assert (Hf := dispatch_frame_ok dp dev vision n p).
  all: set (d := dispatch dp dev vision n p) in H, Hf |- *.
  all: destruct vision as [o|];
    [destruct (success d) eqn:Hd; cbn [success] in H|
     injection H as <-; cbn [success] in Hs; left; apply Hnone;
     destruct Hf as [Hf|Hf]; [congruence|exact Hf]].
  all: try (injection H as <-; cbn [success] in Hs; left; apply Hnone;
            destruct Hf as [Hf|Hf]; [congruence|exact Hf]).
  all: injection H as <-; unfold verify_action_success in Hs |- *;
    cbn [before_screenshot after_screenshot success] in Hs |- *.
  all: destruct (before_screenshot d) as [b|] eqn:Hb;
    [destruct (truthy (verified (ask_verify o))) eqn:Ht|];
    cbn [success] in Hs; try discriminate Hs.
  all: right; exists o; repeat split; try assumption; try reflexivity; try discriminate.
  all: unfold failure_recovery_delay; reflexivity.
Qed.

(** [diagnose_failure] and [_apply_failure_recovery]: a Diagnoser call
    that fails or whose reply is unreadable answers "unknown", and a
    result with both frames then sleeps the fallback's 1 second; an object
    reply is read at its [failure_type] field, "unknown" when absent. *)
Theorem diagnosis_failure_falls_back_to_unknown :
  forall (loads : string -> Exc json) r,
    (forall e, diagnose_failure (raise e) loads = JStr "unknown") /\
    diagnose_failure (ret None) loads = JStr "unknown" /\
    (forall t e,
       loads (slice t (find "{"%char t) (rfind "}"%char t + 1)) = raise e ->
       diagnose_failure (ret (Some t)) loads = JStr "unknown") /\
    (forall t v,
       loads (slice t (find "{"%char t) (rfind "}"%char t + 1)) = ret v ->
       (forall kv, v <> JObj kv) ->
       diagnose_failure (ret (Some t)) loads = JStr "unknown") /\
    (forall t kv,
       loads (slice t (find "{"%char t) (rfind "}"%char t + 1)) = ret (JObj kv) ->
       diagnose_failure (ret (Some t)) loads = get kv "failure_type" (JStr "unknown")) /\
    (forall b a e, before_screenshot r = Some b -> after_screenshot r = Some a ->
       failure_recovery_delay r (raise e) loads = 1%Q).
Proof.
  intros loads r. split; [reflexivity|]. split; [reflexivity|].
  split; [intros t e Hl; unfold diagnose_failure; cbn [bind ret]; rewrite Hl; reflexivity|].
  split.
  { intros t v Hl Hv. unfold diagnose_failure; cbn [bind ret]. rewrite Hl. cbn [bind ret].
    destruct v; try reflexivity. exfalso. exact (Hv kv eq_refl). }
  split.
  - intros t kv Hl. unfold diagnose_failure; cbn [bind ret]. rewrite Hl. reflexivity.
  - intros b a e Hb Ha. unfold failure_recovery_delay. rewrite Hb, Ha. reflexivity.
Qed.

(** The counters of [TaskStatus] and the histories agree. *)
Definition counters_ok (st : ControllerState) : Prop :=
  let s := task_status st in
  total_actions s = (successful_actions s + failed_actions s)%nat /\
  List.length (failure_history st) = failed_actions s /\
  List.length (previous_actions (context st)) = successful_actions s /\
  (total_actions s <= current_iteration s)%nat.

Lemma execute_iteration_counters (st : ControllerState) (i : IterInput) :
  counters_ok st ->
  counters_ok (fst (execute_iteration st i)) /\
  current_iteration (task_status (fst (execute_iteration st i))) =
    S (current_iteration (task_status st)).
Proof.
  unfold counters_ok. intros (H1 & H2 & H3 & H4).
  destruct i as [|shot [pl|]|shot pl r]; simpl; try (repeat split; lia).
  destruct (success r); simpl; rewrite length_app; simpl; repeat split; lia.
Qed.

Lemma loop_counters (max_iterations max_failures : nat) (env : nat -> PassInput) :
  forall fuel k st,
    counters_ok st -> (current_iteration (task_status st) <= max_iterations)%nat ->
    let st' := fst (task_loop max_iterations max_failures env fuel k st) in
    counters_ok st' /\ (current_iteration (task_status st') <= max_iterations)%nat.
Proof.
  induction fuel as [|fuel IH]; intros k st Hc Hm; simpl; [auto|].
  destruct (_ && _ && _) eqn:Hcond; [|simpl; auto].
  apply andb_true_iff in Hcond as [Hcond _]. apply andb_true_iff in Hcond as [Hlt _].
  apply Nat.ltb_lt in Hlt.
  destruct (paused (env k)); [apply IH; assumption|].
  destruct (emergency_stop (env k)); [exact (conj Hc Hm)|].
  pose proof (execute_iteration_counters st (iteration (env k)) Hc) as [Hc' Hi'].
  destruct (execute_iteration st (iteration (env k))) as [st' ok]. simpl in Hc', Hi'.
  destruct ok; simpl.
  - apply IH; [exact Hc' | simpl; lia].
  - destruct (max_failures <=? S (consecutive_failures st'))%nat; simpl.
    + split; [exact Hc' | lia].
    + apply IH; [exact Hc' | simpl; lia].
Qed.

(** [_execute_task_loop] from [execute_task]: at every point of a run,
    [total_actions = successful_actions + failed_actions], the failure
    history holds one record per failed action, the action history one
    plan per successful action, and no more actions were executed than
    iterations started, which never exceed [max_iterations]. *)
Theorem run_counters_consistent :
  forall task max_iterations max_failures env fuel,
    let st := fst (run task max_iterations max_failures env fuel) in
    let s := task_status st in
    total_actions s = (successful_actions s + failed_actions s)%nat /\
    List.length (failure_history st) = failed_actions s /\
    List.length (previous_actions (context st)) = successful_actions s /\
    (total_actions s <= current_iteration s <= max_iterations)%nat.
Proof.
  intros task mi mf env fuel. unfold run.
  assert (H := loop_counters mi mf env fuel 0 (initial_state task)
                 ltac:(unfold counters_ok; simpl; lia) ltac:(simpl; lia)).
  destruct (task_loop mi mf env fuel 0 (initial_state task)) as [st r].
  simpl in H. destruct H as [(H1 & H2 & H3 & H4) H5].
  destruct r; simpl; [|repeat split; lia].
  unfold handle_task_completion.
  destruct (error_message (task_status st)); simpl; repeat split; lia.
Qed.

(** [_execute_task_loop]: a paused task only sleeps.  While every pass
    sees the pause flag and no stop request, the loop keeps running and the
    state is untouched: no iteration, no action, no notification, even when
    the emergency stop flag is set. *)
Theorem paused_task_does_nothing :
  forall task max_iterations max_failures env fuel,
    (0 < max_iterations)%nat ->
    (forall k, (k < fuel)%nat -> paused (env k) = true /\ should_stop (env k) = false) ->
    run task max_iterations max_failures env fuel = (initial_state task, None).
Proof.
  intros task mi mf env fuel Hmi Hp. unfold run.
  assert (Hl : forall f k, (k + f <= fuel)%nat ->
    task_loop mi mf env f k (initial_state task) = (initial_state task, None)).
  { induction f as [|f IH]; intros k Hk; [reflexivity|]. simpl.
    destruct (Hp k ltac:(lia)) as [Hpa Hs]. rewrite Hs, Hpa.
    replace (0 <? mi)%nat with true by (symmetry; apply Nat.ltb_lt; exact Hmi).
    apply IH. lia. }
  rewrite (Hl fuel 0%nat ltac:(lia)). reflexivity.
Qed.

(** [_execute_task_loop]: each pass that is not paused either leaves the
    loop or starts an iteration, so without pauses the loop is left within
    [max_iterations + 1] passes. *)
Theorem unpaused_run_terminates :
  forall task max_iterations max_failures env fuel,
    (max_iterations < fuel)%nat ->
    (forall k, (k < fuel)%nat -> paused (env k) = false) ->
    snd (run task max_iterations max_failures env fuel) <> None.
Proof.
  intros task mi mf env fuel Hf Hp. unfold run.
  assert (Hl : forall f k st, (k + f <= fuel)%nat ->
    (mi - current_iteration (task_status st) < f)%nat ->
    snd (task_loop mi mf env f k st) <> None).
  { induction f as [|f IH]; intros k st Hk Hlt; [lia|]. simpl.
    destruct (_ && _ && _) eqn:Hcond; [|discriminate].
    apply andb_true_iff in Hcond as [Hcond _]. apply andb_true_iff in Hcond as [Hc _].
    apply Nat.ltb_lt in Hc.
    rewrite (Hp k ltac:(lia)).
    destruct (emergency_stop (env k)); [discriminate|].
    assert (Hi := execute_iteration_counters st (iteration (env k))).
    assert (Hs : current_iteration (task_status (fst (execute_iteration st (iteration (env k))))) =
                 S (current_iteration (task_status st))).
    { destruct (iteration (env k)) as [|shot [pl|]|shot pl r]; simpl; [reflexivity..|].
      destruct (success r); reflexivity. }
    clear Hi.
    destruct (execute_iteration st (iteration (env k))) as [st' ok]. simpl in Hs.
    destruct ok; simpl.
    - apply IH; simpl; lia.
    - destruct (mf <=? S (consecutive_failures st'))%nat; [discriminate|].
      apply IH; simpl; lia. }
  assert (H := Hl fuel 0%nat (initial_state task) ltac:(lia) ltac:(simpl; lia)).
  destruct (task_loop mi mf env fuel 0 (initial_state task)) as [st [r|]];
    [discriminate | contradiction].
Qed.

Lemma push_frame_skipn (h : list string) (f : string) :
  (List.length h <= 10)%nat ->
  push_frame h f = skipn (List.length (h ++ [f]) - 10) (h ++ [f]).
Proof.
  intros Hh. unfold push_frame. rewrite length_app. simpl.
  destruct (10 <? List.length h + 1)%nat eqn:E.
  - apply Nat.ltb_lt in E. replace (List.length h + 1 - 10)%nat with 1%nat by lia.
    destruct (h ++ [f])%list; reflexivity.
  - apply Nat.ltb_ge in E. replace (List.length h + 1 - 10)%nat with 0%nat by lia.
    reflexivity.
Qed.

(** [_handle_successful_action]'s trimming of [screenshots_history]:
    pushing frames one by one onto a history of at most 10 leaves exactly
    the 10 most recent frames (all of them when fewer), oldest first. *)
Theorem frame_history_keeps_last_ten :
  forall (fs h : list string),
    (List.length h <= 10)%nat ->
    fold_left push_frame fs h = skipn (List.length (h ++ fs) - 10) (h ++ fs).
Proof.
  induction fs as [|f fs IH]; intros h Hh; simpl.
  - rewrite app_nil_r. replace (List.length h - 10)%nat with 0%nat by lia. reflexivity.
  - rewrite IH by (apply push_frame_length; exact Hh).
    rewrite push_frame_skipn by exact Hh.
    replace (h ++ f :: fs)%list with ((h ++ [f]) ++ fs)%list
      by (rewrite <- app_assoc; reflexivity).
    assert (E : (skipn (List.length (h ++ [f]) - 10) (h ++ [f]) ++ fs =
                 skipn (List.length (h ++ [f]) - 10) ((h ++ [f]) ++ fs))%list).
    { rewrite (skipn_app _ (h ++ [f]) fs). replace (_ - List.length (h ++ [f]))%nat with 0%nat by lia.
      reflexivity. }
    rewrite E, skipn_skipn, length_skipn. f_equal.
    rewrite !length_app. simpl. lia.
Qed.

(** No line feed in a string. *)
Fixpoint no_newline (s : string) : bool :=
  match s with
  | EmptyString => true
  | String c s' => negb (Ascii.eqb c (ascii_of_nat 10)) && no_newline s'
  end.

(** The first character, if any, is not whitespace. *)
Definition starts_unspaced (s : string) : Prop :=
  match s with String c _ => is_space c = false | EmptyString => True end.

Lemma replace_newlines_no_newline (s : string) : no_newline (replace_newlines s) = true.
Proof.
  induction s as [|c s IH]; [reflexivity|]. simpl. rewrite IH.
  destruct (Ascii.eqb c (ascii_of_nat 10)) eqn:E; [reflexivity|]. rewrite E. reflexivity.
Qed.

Lemma lstrip_no_newline (s : string) : no_newline s = true -> no_newline (lstrip s) = true.
Proof.
  induction s as [|c s IH]; [auto|]. simpl. intro H.
  apply andb_true_iff in H as [H1 H2]. destruct (is_space c); [auto|].
  simpl. rewrite H1, H2. reflexivity.
Qed.

Lemma rstrip_no_newline (s : string) : no_newline s = true -> no_newline (rstrip s) = true.
Proof.
  induction s as [|c s IH]; [auto|]. simpl. intro H.
  apply andb_true_iff in H as [H1 H2].
  destruct (String.eqb (rstrip s) "" && is_space c); [reflexivity|].
  simpl. rewrite H1, IH by exact H2. reflexivity.
Qed.

Lemma substring_no_newline (n : nat) (s : string) :
  no_newline s = true -> no_newline (String.substring 0 n s) = true.
Proof.
  revert n. induction s as [|c s IH]; intros [|n] H; simpl; auto.
  apply andb_true_iff in H as [H1 H2]. rewrite H1. simpl. auto.
Qed.

Lemma substring_length_le (n : nat) (s : string) :
  (String.length (String.substring 0 n s) <= n)%nat.
Proof.
  revert n. induction s as [|c s IH]; intros [|n]; simpl; try lia.
  specialize (IH n). lia.
Qed.

Lemma lstrip_starts_unspaced (s : string) : starts_unspaced (lstrip s).
Proof.
  induction s as [|c s IH]; [exact I|]. simpl.
  destruct (is_space c) eqn:E; [exact IH | exact E].
Qed.

Lemma string_length_app (s t : string) :
  String.length (s ++ t) = (String.length s + String.length t)%nat.
Proof. induction s as [|c s IH]; simpl; auto. Qed.

Lemma no_newline_app (s t : string) :
  no_newline s = true -> no_newline t = true -> no_newline (s ++ t) = true.
Proof.
  induction s as [|c s IH]; simpl; auto. intros H Ht.
  apply andb_true_iff in H as [H1 H2]. rewrite H1. simpl. auto.
Qed.

(** [_shorten_text]: the preview holds no line feed, is at most
    [max_len + 3] characters long (the "..." marking a cut), and never
    starts with whitespace. *)
Theorem shorten_text_preview :
  forall text max_len,
    no_newline (shorten_text text max_len) = true /\
    (String.length (shorten_text text max_len) <= max_len + 3)%nat /\
    starts_unspaced (shorten_text text max_len).
Proof.
  intros text n. unfold shorten_text.
  assert (Hn : no_newline (strip (replace_newlines text)) = true).
  { unfold strip. apply lstrip_no_newline, rstrip_no_newline, replace_newlines_no_newline. }
  assert (Hs := lstrip_starts_unspaced (rstrip (replace_newlines text))).
  fold (strip (replace_newlines text)) in Hs.
  destruct (n <? String.length (strip (replace_newlines text)))%nat eqn:E.
  - split; [apply no_newline_app; [apply substring_no_newline; exact Hn | reflexivity]|].
    split.
    + rewrite string_length_app. simpl. pose proof (substring_length_le n (strip (replace_newlines text))). lia.
    + destruct (strip (replace_newlines text)) as [|c t]; [destruct n; discriminate E|].
      destruct n as [|n]; [reflexivity|]. exact Hs.
  - apply Nat.ltb_ge in E. split; [exact Hn|]. split; [lia | exact Hs].
Qed.

Ltac not_unknown_tac :=
  cbv [bind ret raise try_except handler];
  repeat (destruct_innermost; cbn [fst snd]);
  cbv [result_error failed result succeeded]; cbn; let Hu := fresh "Hu" in intro Hu; discriminate Hu.

(** Each handler the [elif] chain names reports something other than
    "Unknown action type". *)
Lemma dispatch_known_type dp dev vision max_click_retries p s :
  action_type p = JStr s -> In s allowed_actions ->
  result_error (dispatch dp dev vision max_click_retries p) <> Some "Unknown action type".
Proof.
  intros Ht Hin. unfold dispatch. rewrite Ht.
  simpl in Hin.
  repeat (destruct Hin as [<- | Hin];
    [ unfold execute_click, execute_double_click, execute_right_click, execute_type,
        execute_scroll, execute_wait, execute_verify, execute_navigate, execute_hotkey,
        execute_move, execute_drag;
      not_unknown_tac |]).
  destruct Hin.
Qed.

(** [execute_action]: the [else] branch of the handler chain is dead.  The
    safety gate only passes the types [allowed_actions] lists, each of which
    has a handler, so no action ever ends with "Unknown action type". *)
Theorem execute_action_never_unknown_type :
  forall dp dev estop vision max_click_retries confirm_hook p r,
    execute_action dp dev estop vision max_click_retries confirm_hook p = ret r ->
    result_error r <> Some "Unknown action type".
Proof.
  intros dp dev estop vision n hook p r H. unfold execute_action in H.
  destruct estop; [injection H as <-; discriminate|].
  destruct (validate_action_safety dev p) as [[|]|e] eqn:Hv; cbn [bind negb] in H;
    [| injection H as <-; discriminate | discriminate H].
  assert (Hs : exists s, action_type p = JStr s /\ In s allowed_actions).
  { unfold validate_action_safety in Hv.
    destruct (action_type p) as [| | |s| |]; cbn [bind ret raise negb] in Hv;
      try discriminate Hv.
    destruct (existsb (String.eqb s) allowed_actions) eqn:E; [|discriminate Hv].
    apply existsb_exists in E. destruct E as [s' [Hin Es]]. apply String.eqb_eq in Es.
    subst s'. exists s. split; [reflexivity | exact Hin]. }
  destruct Hs as [s [Ht Hin]].
  assert (Hd := dispatch_known_type dp dev vision n p s Ht Hin).
  destruct (requires_confirmation p) as [[|]|e]; cbn [bind andb] in H; [| | discriminate H].
  all: try (destruct (hook p); cbn [negb] in H; [|injection H as <-; discriminate]).
  all: set (d := dispatch dp dev vision n p) in H, Hd.
  all: destruct vision as [o|]; [destruct (success d); cbn [success] in H|];
    injection H as <-; unfold result_error in Hd |- *; cbn [error_message] in Hd |- *;
    try exact Hd.
  all: unfold verify_action_success; cbn [before_screenshot after_screenshot error_message].
  all: destruct (before_screenshot d); [destruct (truthy (verified (ask_verify o)))|];
    cbn [error_message]; try exact Hd.
  all: intro Hu; discriminate Hu.
Qed.

(** *** Instances of the further properties *)

(** The double quote character. *)
Definition dq : string := String (ascii_of_nat 34) EmptyString.

(** [json.loads] restricted to one text: the given value for that text, a
    decoding error otherwise. *)
Definition decode_one (txt : string) (v : json) : string -> Exc json :=
  fun s => if String.eqb s txt then ret v else raise JSONDecodeError.

(** The reply [{"coordinates_pct": 3}]. *)
Definition pct_number_reply : string := "{" ++ dq ++ "coordinates_pct" ++ dq ++ ": 3}".

Definition pct_number_io : OracleIO :=
  mkOracleIO (fun _ => ret (Some pct_number_reply))
    (decode_one pct_number_reply (JObj [("coordinates_pct", JNum 3)])).

Definition reply_fields (kv : list (string * json)) : string -> Exc json :=
  fun _ => ret (JObj kv).

(** An oracle that declines the first proposed point, suggesting (100, 200),
    and confirms from then on. *)
Definition moves_once (k : nat) : ConfirmResp :=
  if (k =? 0)%nat then mkConfirmResp false (Some [JNum 100; JNum 200])
  else mkConfirmResp true None.

Definition plan_remove : ActionPlan :=
  mkActionPlan (JStr "click") (JStr "Remove the item") (Some [JNum 40; JNum 40]) JNull
    (JNum 7) (JStr "") JNull.

Definition plan_launch : ActionPlan :=
  mkActionPlan (JStr "launch") (JStr "Launch the app") None JNull (JNum 9) (JStr "") JNull.

Definition paused_pass (_ : nat) : PassInput := mkPassInput true true false NoScreenshot.

Lemma parse_action_response_object_witness :
  exists pl,
    parse_action_response
      (reply_fields [("action_type", JStr "click"); ("coordinates_pct", JArr [JNum 1]);
                     ("coordinates", JArr [JNum 10; JNum 20])]) (Some "{}") = ret pl /\
    coordinates pl = Some [JNum 10; JNum 20].
Proof.
  eexists. split.
  - apply (parse_action_response_object _ "{}"
             [("action_type", JStr "click"); ("coordinates_pct", JArr [JNum 1]);
              ("coordinates", JArr [JNum 10; JNum 20])] [JNum 1] [JNum 10; JNum 20]);
      reflexivity.
  - reflexivity.
Defined.

Lemma analyze_falls_back_on_parser_errors_witness :
  analyze_screenshot (fun _ => "") pct_number_io (mkScreenshot (1920, 1080)%Z "png")
    empty_context (1920, 1080)%Z = create_fallback_action.
Proof.
  exact (proj2 (analyze_falls_back_on_parser_errors (fun _ => "") pct_number_io
                  (mkScreenshot (1920, 1080)%Z "png") empty_context (1920, 1080)%Z _
                  pct_number_reply ltac:(vm_compute; reflexivity) eq_refl
                  [("coordinates_pct", JNum 3)] 3 ltac:(vm_compute; reflexivity)
                  eq_refl ltac:(vm_compute; discriminate))).
Defined.

Lemma confirm_click_reply_witness :
  confirm_click (ret (Some "{}")) (reply_fields [("confirm", JStr "false")])
    = mkConfirmResp true None /\
  confirm_click (ret (Some "{}"))
    (reply_fields [("confirm", JBool true); ("suggested_coordinates", JNum 7)])
    = mkConfirmResp false None.
Proof.
  split.
  - destruct (confirm_click_reply (reply_fields [("confirm", JStr "false")]))
      as (_ & _ & _ & _ & H & _).
    exact (H "{}" [("confirm", JStr "false")] [] eq_refl eq_refl).
  - destruct (confirm_click_reply
                (reply_fields [("confirm", JBool true); ("suggested_coordinates", JNum 7)]))
      as (_ & _ & _ & _ & _ & H).
    apply (H "{}" _ 7 eq_refl eq_refl).
    intro Hq. unfold Qeq in Hq. simpl in Hq. discriminate Hq.
Defined.

Lemma click_abandoned_when_confirmation_fails_witness :
  execute_click screen_1080p
    (Some (fun k => confirm_click ((fun _ => raise TransportError) k)
                      (reply_fields [("confirm", JBool true)])))
    3 (plan_click_at 50 60) = (failed "Click not confirmed by AI", 1%nat).
Proof.
  apply (click_abandoned_when_confirmation_fails screen_1080p 3 (plan_click_at 50 60) 50 60
           (fun _ => raise TransportError) _ TransportError);
    [lia | reflexivity | reflexivity | | reflexivity].
  split; split; unfold Qle; simpl; lia.
Defined.

Lemma click_lands_on_last_suggestion_witness :
  execute_click screen_1080p (Some moves_once) 3 (plan_click_at 50 60)
    = (succeeded (Some "frame"), 2%nat).
Proof.
  apply (click_lands_on_last_suggestion screen_1080p moves_once 3 (plan_click_at 50 60) 50 60 1
           (fun _ => 100) (fun _ => 200));
    [reflexivity | reflexivity | | lia | | reflexivity].
  - split; split; unfold Qle; simpl; lia.
  - intros k Hk. destruct k as [|k]; [split; reflexivity | lia].
Defined.

Lemma safety_gate_type_check_witness :
  validate_action_safety screen_1080p plan_launch = ret false.
Proof.
  apply (proj1 (safety_gate_type_check screen_1080p plan_launch) "launch" eq_refl).
  simpl. intuition discriminate.
Defined.

Lemma safety_gate_bounds_witness :
  validate_action_safety screen_1080p (plan_click_at 1920 1080) = ret true /\
  validate_action_safety screen_1080p (plan_click_at 1921 0) = ret false.
Proof.
  split.
  - rewrite (proj1 (proj2 (safety_gate_bounds screen_1080p (plan_click_at 1920 1080) "click"
               "Open the settings menu" eq_refl ltac:(simpl; auto) eq_refl
               ltac:(intro Hk; vm_compute in Hk; discriminate Hk))) 1920 1080 eq_refl).
    reflexivity.
  - rewrite (proj1 (proj2 (safety_gate_bounds screen_1080p (plan_click_at 1921 0) "click"
               "Open the settings menu" eq_refl ltac:(simpl; auto) eq_refl
               ltac:(intro Hk; vm_compute in Hk; discriminate Hk))) 1921 0 eq_refl).
    reflexivity.
Defined.

Lemma validated_plan_passes_gate_unless_remove_witness :
  validate_action_plan plan_remove = ret true /\
  validate_action_safety screen_1080p plan_remove = ret false.
Proof.
  split; [vm_compute; reflexivity|].
  rewrite (validated_plan_passes_gate_unless_remove screen_1080p plan_remove "Remove the item" 7
             ltac:(vm_compute; reflexivity) eq_refl eq_refl).
  - vm_compute. reflexivity.
  - right. exists 40, 40. split; [reflexivity|]. split; split; unfold Qle; simpl; lia.
Defined.

Lemma execute_action_success_inv_witness :
  success (dispatch no_drag_pattern screen_1080p None 3 plan_wait) = true /\
  validate_action_safety screen_1080p plan_wait = ret true.
Proof.
  assert (E : execute_action no_drag_pattern screen_1080p false None 3 get_user_confirmation
                plan_wait = ret (mkExecutionResult true None None (Some "frame") (JBool false) None))
    by (vm_compute; reflexivity).
  destruct (execute_action_success_inv _ _ _ _ _ _ _ _ E eq_refl) as (_ & Hv & _ & Hd & _).
  exact (conj Hd Hv).
Defined.

Lemma diagnosis_only_after_rejected_verification_witness :
  exists r,
    execute_action no_drag_pattern screen_1080p false (Some sceptical_oracle) 3
      get_user_confirmation plan_type = ret r /\
    before_screenshot r <> None /\
    truthy (verified (ask_verify sceptical_oracle)) = false.
Proof.
  destruct (execute_action no_drag_pattern screen_1080p false (Some sceptical_oracle) 3
              get_user_confirmation plan_type) as [r|e] eqn:E;
    [|vm_compute in E; discriminate E].
  exists r. split; [reflexivity|].
  assert (Hs : success r = false) by (vm_compute in E; injection E as <-; reflexivity).
  destruct (diagnosis_only_after_rejected_verification _ _ _ _ _ _ _ r
              (raise TransportError) (reply_fields []) E Hs) as [[Hb _] | (o & Ho & _ & Hv & _ & _ & Hb & _)].
  - vm_compute in E. injection E as <-. discriminate Hb.
  - injection Ho as <-. split; [exact Hb | exact Hv].
Defined.

Lemma diagnosis_failure_falls_back_to_unknown_witness :
  failure_recovery_delay (mkExecutionResult false None (Some "before") (Some "after") (JBool false) None)
    (raise TransportError) (reply_fields []) = 1%Q.
Proof.
  destruct (diagnosis_failure_falls_back_to_unknown (reply_fields [])
              (mkExecutionResult false None (Some "before") (Some "after") (JBool false) None))
    as (_ & _ & _ & _ & _ & H).
  exact (H "before" "after" TransportError eq_refl eq_refl).
Defined.

Lemma paused_task_does_nothing_witness :
  run "Open the settings" 5 3 paused_pass 4 = (initial_state "Open the settings", None).
Proof.
  apply paused_task_does_nothing; [lia | intros k _; split; reflexivity].
Defined.

Lemma unpaused_run_terminates_witness :
  snd (run "Open the settings" 3 3 (pass_with false NoScreenshot) 4) <> None.
Proof.
  apply unpaused_run_terminates; [lia | intros k _; reflexivity].
Defined.

Lemma frame_history_keeps_last_ten_witness :
  fold_left push_frame ["f10"; "f11"] ten_frames = skipn 2 (ten_frames ++ ["f10"; "f11"]).
Proof.
  exact (frame_history_keeps_last_ten ["f10"; "f11"] ten_frames ltac:(simpl; lia)).
Defined.

Lemma execute_action_never_unknown_type_witness :
  exists r,
    execute_action no_drag_pattern screen_1080p false None 3 get_user_confirmation plan_wait
      = ret r /\ result_error r <> Some "Unknown action type".
Proof.
  destruct (execute_action no_drag_pattern screen_1080p false None 3 get_user_confirmation
              plan_wait) as [r|e] eqn:E; [|vm_compute in E; discriminate E].
  exists r. split; [reflexivity|].
  exact (execute_action_never_unknown_type _ _ _ _ _ _ _ r E).
Defined.
